(** * Business-registry dashboard: the metric computations of app.py and dashRne.py

    The two scripts load one spreadsheet of yearly operation counts into a
    pandas DataFrame and compute sums, percentage changes, label lookups,
    extrema and a top-5 from it.  This file embeds those computations:

    - [Num]      the numbers of a float64 column, idealised (exact rationals
                 for the finite values, plus +inf, -inf and NaN);
    - [Pandas]   the DataFrame operations the scripts call, with the meaning
                 pandas documents for them, over the three columns the
                 scripts read;
    - [Store]    DataFrame objects and references to them, for the
                 statements that assign a column;
    - [Sheet]    the spreadsheet as [read_excel] delivers it;
    - [App]      the expressions of app.py, page by page;
    - [DashRne]  the expressions of dashRne.py;
    - [Loaded]   the pages of app.py that ask ['...' in op] of a label, over
                 a label column whose cells need not be texts;
    - [Spec]     the wording of the specification where a theorem compares
                 the code with it;
    - [Sample]   small tables and sheets.

    The definitions come first, the lemmas and theorems after them. *)

From Stdlib Require Import ZArith QArith Qcanon List String Bool Arith Lia.
From Stdlib Require Import Sorted Permutation.
Import ListNotations.

Close Scope Q_scope.
Close Scope Qc_scope.
Set Implicit Arguments.

(* ===================================================================== *)
(** ** Numbers *)
(* ===================================================================== *)

Module Num.

(** A value of a numeric column or of a scalar computed from one.  Finite
    values are exact rationals: rounding, overflow and the sign of zero of
    binary64 are left out.  Division by zero and the missing value behave
    as in IEEE 754, which is what numpy and pandas compute with. *)
Inductive num : Type :=
| Fin (q : Qc)
| PInf
| NInf
| NaN.

Definition int (z : Z) : num := Fin (Q2Qc (inject_Z z)).

Definition Qc_ltb (a b : Qc) : bool :=
  match (a ?= b)%Qc with Lt => true | _ => false end.

Definition Qc_leb (a b : Qc) : bool :=
  match (a ?= b)%Qc with Gt => false | _ => true end.

Definition is_nan (x : num) : bool :=
  match x with NaN => true | _ => false end.

Definition is_finite (x : num) : bool :=
  match x with Fin _ => true | _ => false end.

(** Python's [x == y] on floats: NaN equals nothing, itself included. *)
Definition eqb (x y : num) : bool :=
  match x, y with
  | Fin a, Fin b => Qc_eq_bool a b
  | PInf, PInf => true
  | NInf, NInf => true
  | _, _ => false
  end.

(** Python's [x != y]. *)
Definition neb (x y : num) : bool := negb (eqb x y).

(** [x < y]; false as soon as one side is NaN. *)
Definition ltb (x y : num) : bool :=
  match x, y with
  | Fin a, Fin b => Qc_ltb a b
  | NInf, Fin _ | NInf, PInf | Fin _, PInf => true
  | _, _ => false
  end.

(** [x <= y]; false as soon as one side is NaN. *)
Definition leb (x y : num) : bool :=
  match x, y with
  | Fin a, Fin b => Qc_leb a b
  | NInf, Fin _ | NInf, PInf | Fin _, PInf => true
  | NInf, NInf | PInf, PInf => true
  | _, _ => false
  end.

Definition opp (x : num) : num :=
  match x with
  | Fin a => Fin (- a)%Qc
  | PInf => NInf
  | NInf => PInf
  | NaN => NaN
  end.

Definition add (x y : num) : num :=
  match x, y with
  | NaN, _ | _, NaN => NaN
  | Fin a, Fin b => Fin (a + b)%Qc
  | PInf, NInf | NInf, PInf => NaN
  | PInf, _ | _, PInf => PInf
  | NInf, _ | _, NInf => NInf
  end.

Definition sub (x y : num) : num := add x (opp y).

(** An infinity times the finite [b]: the infinity whose sign is the product
    of the signs, NaN for [b = 0]. *)
Definition inf_times (positive : bool) (b : Qc) : num :=
  match (b ?= 0)%Qc with
  | Eq => NaN
  | Gt => if positive then PInf else NInf
  | Lt => if positive then NInf else PInf
  end.

Definition mul (x y : num) : num :=
  match x, y with
  | NaN, _ | _, NaN => NaN
  | Fin a, Fin b => Fin (a * b)%Qc
  | PInf, Fin b | Fin b, PInf => inf_times true b
  | NInf, Fin b | Fin b, NInf => inf_times false b
  | PInf, PInf | NInf, NInf => PInf
  | PInf, NInf | NInf, PInf => NInf
  end.

(** True division as numpy does it: a finite value over zero is an infinity
    of its sign, zero over zero is NaN, and nothing is raised. *)
Definition div (x y : num) : num :=
  match x, y with
  | NaN, _ | _, NaN => NaN
  | Fin a, Fin b =>
      if Qc_eq_bool b 0
      then match (a ?= 0)%Qc with Eq => NaN | Gt => PInf | Lt => NInf end
      else Fin (a / b)%Qc
  | Fin _, _ => Fin 0%Qc
  | PInf, Fin b => if Qc_ltb b 0 then NInf else PInf
  | NInf, Fin b => if Qc_ltb b 0 then PInf else NInf
  | _, _ => NaN
  end.

(** [x] goes no later than [y] when a column is put in descending order with
    the missing values last (pandas' [na_position='last']). *)
Definition desc_leb (x y : num) : bool :=
  match y with
  | NaN => true
  | _ => leb y x
  end.

(** Two values that a descending sort cannot tell apart: a tie. *)
Definition tie (x y : num) : bool := desc_leb x y && desc_leb y x.

End Num.
Export Num.

(* ===================================================================== *)
(** ** Exceptions and results *)
(* ===================================================================== *)

(** The Python exceptions the modelled expressions can raise.  [OSError]
    stands for every failure of the read itself (a missing file, a file
    that is no workbook). *)
Inductive exn : Type :=
| KeyError
| IndexError
| ValueError
| NameError
| TypeError
| OSError.

Inductive result (A : Type) : Type :=
| Ok (a : A)
| Raise (e : exn).

Arguments Ok {A} a.
Arguments Raise {A} e.

Definition bind {A B : Type} (m : result A) (k : A -> result B) : result B :=
  match m with
  | Ok a => k a
  | Raise e => Raise e
  end.

Declare Scope result_scope.
Delimit Scope result_scope with result.
Notation "x <- m ;; k" := (bind m (fun x => k))
  (at level 61, m at next level, right associativity) : result_scope.

(** [try: body except (IndexError, KeyError): handler]. *)
Definition try_except_index_key {A : Type} (body : result A) (handler : A) : result A :=
  match body with
  | Raise IndexError | Raise KeyError => Ok handler
  | other => other
  end.

(* ===================================================================== *)
(** ** The DataFrame operations the scripts use *)
(* ===================================================================== *)

Module Pandas.

(** The two count columns, ['2024 العدد'] and ['2025 العدد']. *)
Inductive Year : Type := Y2024 | Y2025.

(** One row of the sheet: the columns ['نوع العملية'], ['2024 العدد'] and
    ['2025 العدد'].  The label is a string, as the scripts assume when they
    test ['...' in op]; a label cell that is empty or holds a number is in
    [Loaded], with the TypeError of that test. *)
Record Row : Type := mkRow {
  operation_type : string;
  count_2024 : num;
  count_2025 : num
}.

Definition count (y : Year) (r : Row) : num :=
  match y with
  | Y2024 => count_2024 r
  | Y2025 => count_2025 r
  end.

(** A DataFrame over those columns: its rows in order, each with its index
    label.  [read_excel] labels the rows 0, 1, 2, ...; selecting rows keeps
    the labels. *)
Definition Table : Type := list (nat * Row).

(** A numeric Series: values with their index labels. *)
Definition Series : Type := list (nat * num).

Definition values (s : Series) : list num := map snd s.

(** [df.empty] *)
Definition empty (df : Table) : bool :=
  match df with
  | [] => true
  | _ :: _ => false
  end.

(** [df['نوع العملية']] *)
Definition labels (df : Table) : list string :=
  map (fun r => operation_type (snd r)) df.

(** [df['2024 العدد']], [df['2025 العدد']] *)
Definition column (y : Year) (df : Table) : Series :=
  map (fun r => (fst r, count y (snd r))) df.

(** [Series.unique()]: the distinct values in order of first appearance. *)
Fixpoint unique_from (seen : list string) (l : list string) : list string :=
  match l with
  | [] => []
  | x :: l' =>
      if existsb (String.eqb x) seen then unique_from seen l'
      else x :: unique_from (x :: seen) l'
  end.

Definition unique (l : list string) : list string := unique_from [] l.

(** [needle in hay] on Python strings.  The strings are UTF-8 bytes here;
    a well-formed needle occurs among the bytes exactly where it occurs
    among the characters. *)
Fixpoint contains (needle hay : string) : bool :=
  String.prefix needle hay
  || match hay with
     | EmptyString => false
     | String _ hay' => contains needle hay'
     end.

(** [df[df['نوع العملية'].isin(ops)]] *)
Definition isin (ops : list string) (df : Table) : Table :=
  filter (fun r => existsb (String.eqb (operation_type (snd r))) ops) df.

(** [df['نوع العملية'] == label], one row of the mask. *)
Definition has_label (label : string) (r : nat * Row) : bool :=
  String.eqb (operation_type (snd r)) label.

(** [df.loc[df['نوع العملية'] == label, year]] *)
Definition loc_eq (label : string) (y : Year) (df : Table) : Series :=
  column y (filter (has_label label) df).

(** [s.values[0]]: IndexError on an empty array. *)
Definition values0 (s : Series) : result num :=
  match values s with
  | [] => Raise IndexError
  | x :: _ => Ok x
  end.

(** [Series.sum()], which skips the missing values ([skipna=True]) and is 0
    on nothing. *)
Definition sum (s : Series) : num :=
  fold_left (fun acc x => if is_nan x then acc else add acc x) (values s) (int 0).

(** [df.drop(ks)]: the rows whose index label is none of [ks]; KeyError when
    a label of [ks] is not in the index. *)
Definition drop (ks : list nat) (df : Table) : result Table :=
  if forallb (fun k => existsb (Nat.eqb k) (map fst df)) ks
  then Ok (filter (fun r => negb (existsb (Nat.eqb (fst r)) ks)) df)
  else Raise KeyError.

(** [df.iloc[-1]]: IndexError on an empty frame. *)
Definition iloc_last (df : Table) : result Row :=
  match rev df with
  | [] => Raise IndexError
  | r :: _ => Ok (snd r)
  end.

(** [df.iloc[:-1]] *)
Definition iloc_init (df : Table) : Table := removelast df.

(** [df.iloc[0]]: IndexError on an empty frame. *)
Definition iloc_first (df : Table) : result Row :=
  match df with
  | [] => Raise IndexError
  | r :: _ => Ok (snd r)
  end.

(** [df.loc[i, 'نوع العملية']]: KeyError when no row is labelled [i]. *)
Definition loc_label (i : nat) (df : Table) : result string :=
  match find (fun r => Nat.eqb (fst r) i) df with
  | Some r => Ok (operation_type (snd r))
  | None => Raise KeyError
  end.

(** The extremum of a Series for a strict order [better], missing values
    skipped: the entry that no later entry improves on strictly, so the
    first one among equals. *)
Fixpoint extremum_from (better : num -> num -> bool) (best : nat * num) (s : Series)
  : nat * num :=
  match s with
  | [] => best
  | p :: s' =>
      if is_nan (snd p) then extremum_from better best s'
      else if better (snd p) (snd best) then extremum_from better p s'
      else extremum_from better best s'
  end.

Definition extremum (better : num -> num -> bool) (s : Series) : option (nat * num) :=
  match filter (fun p => negb (is_nan (snd p))) s with
  | [] => None
  | p :: s' => Some (extremum_from better p s')
  end.

(** [Series.idxmax()]: the label of the first occurrence of the maximum.
    It raises ValueError on an empty Series; on a Series of missing values
    only, pandas 3 raises ValueError too (earlier versions return NaN, which
    the [.loc] around it then refuses with KeyError). *)
Definition idxmax (s : Series) : result nat :=
  match extremum (fun x y => ltb y x) s with
  | Some p => Ok (fst p)
  | None => Raise ValueError
  end.

(** [Series.idxmin()] *)
Definition idxmin (s : Series) : result nat :=
  match extremum ltb s with
  | Some p => Ok (fst p)
  | None => Raise ValueError
  end.

(** [Series.max()]: NaN when there is no value. *)
Definition max (s : Series) : num :=
  match extremum (fun x y => ltb y x) s with
  | Some p => snd p
  | None => NaN
  end.

(** [Series.min()] *)
Definition min (s : Series) : num :=
  match extremum ltb s with
  | Some p => snd p
  | None => NaN
  end.

(** A stable sort into descending order of [key], missing keys last: each
    element goes in front of the first one it is not smaller than, so in
    front of its ties from further down the frame. *)
Fixpoint insert_desc (A : Type) (key : A -> num) (x : A) (l : list A) : list A :=
  match l with
  | [] => [x]
  | y :: l' =>
      if desc_leb (key x) (key y) then x :: y :: l'
      else y :: insert_desc key x l'
  end.

Definition sort_desc (A : Type) (key : A -> num) (l : list A) : list A :=
  fold_right (insert_desc key) [] l.

(** [df.nlargest(n, year)] with the default [keep='first']: the first [n]
    rows in descending order of the column, first occurrences first among
    equal values. *)
Definition nlargest (n : nat) (y : Year) (df : Table) : Table :=
  firstn n (sort_desc (fun r => count y (snd r)) df).

End Pandas.
Export Pandas.

(* ===================================================================== *)
(** ** DataFrame objects and the variables that name them *)
(* ===================================================================== *)

Module Store.

(** A DataFrame object: its rows, and the derived column ['change_pct'] once
    a view has assigned it. *)
Record Frame : Type := mkFrame {
  data : Table;
  change_pct_col : option Series
}.


(** A Series aligned on the index [idx]. *)
Definition reindex (idx : list nat) (s : Series) : Series :=
  map (fun i =>
         (i, match find (fun p => Nat.eqb (fst p) i) s with
             | Some p => snd p
             | None => NaN
             end)) idx.

(** A selection of rows ([df[mask]], [df.iloc[:-1]], [df.nlargest(...)]):
    a new frame with the chosen rows and every column of the old one. *)
Definition select (rows : Table -> Table) (f : Frame) : Frame :=
  let d := rows (data f) in
  {| data := d;
     change_pct_col := option_map (reindex (map fst d)) (change_pct_col f) |}.

(** [df['change_pct'] = s]: the frame itself gets the column. *)
Definition setitem_change_pct (s : Series) (f : Frame) : Frame :=
  {| data := data f; change_pct_col := Some s |}.

(** The objects alive in one run of a script, and references to them: a
    Python variable holds a reference, and two variables may hold the same
    one. *)
Definition heap : Type := list Frame.
Definition ref : Type := nat.

(** A run of statements: it changes the heap, and ends with a value or with
    an exception; what was changed before an exception stays changed. *)
Definition M (A : Type) : Type := heap -> heap * result A.

Definition ret {A : Type} (a : A) : M A := fun h => (h, Ok a).

Definition bindM {A B : Type} (m : M A) (k : A -> M B) : M B :=
  fun h =>
    match m h with
    | (h', Ok a) => k a h'
    | (h', Raise e) => (h', Raise e)
    end.

Definition lift {A : Type} (r : result A) : M A := fun h => (h, r).

(** A new object. *)
Definition new (f : Frame) : M ref := fun h => (h ++ [f], Ok (List.length h)).

(** The object a reference names. *)
Definition get (r : ref) : M Frame :=
  fun h =>
    match nth_error h r with
    | Some f => (h, Ok f)
    | None => (h, Raise NameError)
    end.

Fixpoint update (A : Type) (k : nat) (g : A -> A) (l : list A) : list A :=
  match l, k with
  | [], _ => []
  | x :: l', O => g x :: l'
  | x :: l', S k' => x :: update k' g l'
  end.

(** [r['change_pct'] = s] *)
Definition setitem (r : ref) (s : Series) : M unit :=
  fun h =>
    match nth_error h r with
    | Some _ => (update r (setitem_change_pct s) h, Ok tt)
    | None => (h, Raise NameError)
    end.

(** A run started in a heap that satisfies [P] ends in a heap that
    satisfies [Q] of its value, or raises in a heap that satisfies [E]. *)
Definition hoare {A : Type} (P : heap -> Prop) (m : M A)
  (Q : A -> heap -> Prop) (E : heap -> Prop) : Prop :=
  forall h, P h ->
    match m h with
    | (h', Ok a) => Q a h'
    | (h', Raise _) => E h'
    end.


Declare Scope heap_scope.
Delimit Scope heap_scope with heap.
Notation "x <~ m ;; k" := (bindM m (fun x => k))
  (at level 61, m at next level, right associativity) : heap_scope.
Notation "m ;;; k" := (bindM m (fun _ => k))
  (at level 61, right associativity) : heap_scope.

End Store.
Export Store.

(* ===================================================================== *)
(** ** The spreadsheet as it is read *)
(* ===================================================================== *)

Module Sheet.

(** A cell as [read_excel] delivers it: a number (the empty cell is NaN) or
    a text. *)
Inductive cell : Type :=
| CNum (x : num)
| CStr (s : string).

(** A DataFrame as read: the header, and the rows with their index labels,
    one cell per column. *)
Record RawFrame : Type := mkRaw {
  header : list string;
  body : list (nat * list cell)
}.

(** What the scripts read from: a workbook with a header row and data rows,
    or something [read_excel] fails on with the exception [e]. *)
Inductive source : Type :=
| Workbook (hd : list string) (rows : list (list cell))
| Unreadable (e : exn).

(** A data row as wide as the header: cells beyond it are cut, cells that
    are not there are missing. *)
Definition fit (width : nat) (row : list cell) : list cell :=
  firstn width (row ++ repeat (CNum NaN) width).

(** [pd.read_excel(path)]: rows labelled 0, 1, 2, ..., one cell per column. *)
Definition read_excel (src : source) : result RawFrame :=
  match src with
  | Workbook hd rows =>
      Ok {| header := hd;
            body := combine (seq 0 (List.length rows)) (map (fit (List.length hd)) rows) |}
  | Unreadable e => Raise e
  end.

(** [pd.DataFrame()] *)
Definition empty_frame : RawFrame := {| header := []; body := [] |}.

Definition is_na (c : cell) : bool :=
  match c with
  | CNum x => is_nan x
  | CStr _ => false
  end.

(** [df.dropna(how='all')]: the rows with at least one cell that is not
    missing, labels kept. *)
Definition dropna_all (df : RawFrame) : RawFrame :=
  {| header := header df;
     body := filter (fun r => negb (forallb is_na (snd r))) (body df) |}.

(** The position of a column, by name. *)
Fixpoint index_of (name : string) (hd : list string) : option nat :=
  match hd with
  | [] => None
  | c :: hd' =>
      if String.eqb c name then Some O
      else option_map S (index_of name hd')
  end.

(** The cell of a row at a column position. *)
Definition cell_at (k : nat) (row : list cell) : cell := nth k row (CNum NaN).

(** The cells of a column, top to bottom. *)
Definition column_cells (k : nat) (df : RawFrame) : list cell :=
  map (fun r => cell_at k (snd r)) (body df).

End Sheet.
Export Sheet.

(* ===================================================================== *)
(** ** app.py *)
(* ===================================================================== *)

Module App.

Local Open Scope result_scope.
Local Open Scope string_scope.

(** *** [load_data] (lines 97-110) *)

Section LoadData.

(** [pd.to_numeric] on a text cell under [errors='coerce']: the number the
    text spells, NaN when it spells none. *)
Variable to_numeric_str : string -> num.

Definition to_numeric (c : cell) : num :=
  match c with
  | CNum x => x
  | CStr s => to_numeric_str s
  end.

(** [.fillna(0)] *)
Definition fillna0 (x : num) : num := if is_nan x then int 0 else x.

Definition coerce (c : cell) : cell := CNum (fillna0 (to_numeric c)).

Definition numeric_cols : list string := ["2024 العدد"; "2025 العدد"].

(** [df[names]]: the positions of the columns, KeyError when one is not in
    the header. *)
Fixpoint positions (names : list string) (hd : list string) : result (list nat) :=
  match names with
  | [] => Ok []
  | n :: names' =>
      match index_of n hd with
      | Some k => ks <- positions names' hd ;; Ok (k :: ks)
      | None => Raise KeyError
      end
  end.

(** The row with the cells at [ks] coerced. *)
Definition coerce_row (ks : list nat) (row : list cell) : list cell :=
  fold_right (fun k r => update k coerce r) row ks.

(** [st.error(f"Error loading data: {str(e)}")] *)
Inductive st_call : Type := st_error (e : exn).

(** The body of the [try]. *)
Definition load_data_try (src : source) : result RawFrame :=
  df <- read_excel src ;;
  let df := dropna_all df in
  ks <- positions numeric_cols (header df) ;;
  Ok {| header := header df;
        body := map (fun r => (fst r, coerce_row ks (snd r))) (body df) |}.

(** [load_data()]: the frame it returns and what it shows on the page. *)
Definition load_data (src : source) : RawFrame * list st_call :=
  match load_data_try src with
  | Ok df => (df, [])
  | Raise e => (empty_frame, [st_error e])
  end.

End LoadData.

(** *** Sidebar and filter (lines 125-152) *)

Definition operation_types (df : Table) : list string := unique (labels df).

Definition df_filtered (df : Table) (selected_operations : list string) : Table :=
  if negb (empty df) then
    match selected_operations with
    | _ :: _ => isin selected_operations df
    | [] => df
    end
  else [].

(** *** Data Overview (lines 161-173) *)

(** [df.drop(ks)[year].sum()] *)
Definition sum_without (ks : list nat) (y : Year) (df : Table) : result num :=
  d <- drop ks df ;; Ok (sum (column y d)).

Definition total_2024 (df : Table) : result num := sum_without [5; 8; 15] Y2024 df.
Definition total_2025 (df : Table) : result num := sum_without [5; 8; 15] Y2025 df.

(** The sums of both years with the rows labelled [exclude_indices] left
    out: lines 164-165 for any list in place of 5, 8 and 15. *)
Definition total (df : Table) (exclude_indices : list nat) : result (num * num) :=
  s24 <- sum_without exclude_indices Y2024 df ;;
  s25 <- sum_without exclude_indices Y2025 df ;;
  Ok (s24, s25).

(** [((b - a) / a) * 100 if a != 0 else 0], the form of every scalar
    percentage of app.py (lines 166, 269, 368, 468, 581, 592, 596). *)
Definition change_pct (a b : num) : num :=
  if neb a (int 0) then mul (div (sub b a) a) (int 100) else int 0.

(** What the three cards of a page show: both totals and the yearly change. *)
Definition cards (df : Table) : result (num * num * num) :=
  t24 <- total_2024 df ;;
  t25 <- total_2025 df ;;
  Ok (t24, t25, change_pct t24 t25).

(** The Data Overview page: [None] when it shows "No data available". *)
Definition data_overview (df : Table) : result (option (num * num * num)) :=
  if negb (empty df) then c <- cards df ;; Ok (Some c) else Ok None.

Definition creation_total : string := "مجموع عمليات التأسيس".

(** [df.loc[df['نوع العملية'] == label, year].values[0]] *)
Definition lookup_value (df : Table) (label : string) (y : Year) : result num :=
  values0 (loc_eq label y df).

(** Lines 169-173: the two lookups under [try], (0, 0) on IndexError or
    KeyError. *)
Definition crea (df : Table) : result (num * num) :=
  try_except_index_key
    (crea_2024 <- lookup_value df creation_total Y2024 ;;
     crea_2025 <- lookup_value df creation_total Y2025 ;;
     Ok (crea_2024, crea_2025))
    (int 0, int 0).

(** *** The per-row percentage (lines 329, 426, 475-476, 599) *)

(** [((df['2025 العدد'] - df['2024 العدد']) / df['2024 العدد']) * 100],
    one row of it. *)
Definition row_change_pct (r : Row) : num :=
  mul (div (sub (count_2025 r) (count_2024 r)) (count_2024 r)) (int 100).

Definition change_pct_series (df : Table) : Series :=
  map (fun r => (fst r, row_change_pct (snd r))) df.

(** [f['change_pct']]: KeyError when the frame has no such column. *)
Definition getitem_change_pct (f : Frame) : result Series :=
  match change_pct_col f with
  | Some s => Ok s
  | None => Raise KeyError
  end.

(** Lines 477-478 and 600-601. *)
Definition biggest_increase (f : Frame) : result (string * num) :=
  s <- getitem_change_pct f ;;
  i <- idxmax s ;;
  name <- loc_label i (data f) ;;
  Ok (name, max s).

(** Lines 479-480 and 602-603. *)
Definition biggest_decrease (f : Frame) : result (string * num) :=
  s <- getitem_change_pct f ;;
  i <- idxmin s ;;
  name <- loc_label i (data f) ;;
  Ok (name, min s).

Inductive direction : Type := Increase | Decrease.

(** The biggest mover of a table: the column is computed and assigned, then
    the extremum is looked up. *)
Definition biggest_mover (df : Table) (d : direction) : result (string * num) :=
  let f := setitem_change_pct (change_pct_series df) (mkFrame df None) in
  match d with
  | Increase => biggest_increase f
  | Decrease => biggest_decrease f
  end.

(** *** Executive Summary, the values (lines 574-606) *)

Definition marker : string := "مجموع".

(** [df.iloc[:-1] if 'مجموع' in df.iloc[-1]['نوع العملية'] else df] *)
Definition df_for_summary (df : Table) : result Table :=
  last <- iloc_last df ;;
  Ok (if contains marker (operation_type last) then iloc_init df else df).

(** [df_for_summary.nlargest(5, '2025 العدد')] *)
Definition top_ops (df_for_summary : Table) : Table := nlargest 5 Y2025 df_for_summary.

(** *** The views as statements over the objects (the four pages that
    assign ['change_pct'])

    [df] is the reference the module-level variable of that name holds: the
    frame [load_data()] returned to this run of the script. *)

Local Open Scope heap_scope.

Definition is_creation_op (op : string) : bool :=
  contains "طلب تأسيس" op || contains "إنشاء" op.

Definition is_update_op (op : string) : bool :=
  contains "طلب عمليات" op || contains "تحديث" op.

Definition service_ops : list string :=
  ["ترسيم رهون"; "ترسيم إيجار"; "طلب شهادة حجز تسمية";
   "استخراج مضمون"; "دعوة لجلسة عامة"; "التصريح بالمستفيد الحقيقي"].

(** Creation Analysis (lines 259-349). *)
Definition creation_analysis (df : ref) : M unit :=
  f <~ get df ;;
  if negb (empty (data f)) then
    let creation_ops := filter is_creation_op (unique (labels (data f))) in
    df_creations <~ new (select (isin creation_ops) f) ;;
    fc <~ get df_creations ;;
    if negb (empty (data fc)) then
      setitem df_creations (change_pct_series (data fc))
    else ret tt
  else ret tt.

(** Modification Analysis (lines 358-446). *)
Definition modification_analysis (df : ref) : M unit :=
  f <~ get df ;;
  if negb (empty (data f)) then
    let update_ops := filter is_update_op (unique (labels (data f))) in
    df_updates <~ new (select (isin update_ops) f) ;;
    fu <~ get df_updates ;;
    if negb (empty (data fu)) then
      setitem df_updates (change_pct_series (data fu))
    else ret tt
  else ret tt.

(** Additional Services (lines 455-566). *)
Definition additional_services (df : ref) : M unit :=
  f <~ get df ;;
  if negb (empty (data f)) then
    df_services <~ new (select (isin service_ops) f) ;;
    fs <~ get df_services ;;
    if negb (empty (data fs)) then
      most_requested <~ lift (i <- idxmax (column Y2025 (data fs)) ;;
                              loc_label i (data fs))%result ;;
      setitem df_services (change_pct_series (data fs)) ;;;
      fs' <~ get df_services ;;
      inc <~ lift (biggest_increase fs') ;;
      dec <~ lift (biggest_decrease fs') ;;
      ret tt
    else ret tt
  else ret tt.






(** *** The subsets and the figures of the pages *)

(** Lines 261 and 360 (584-585 on [df_for_summary]): the labels of the
    table that contain one of the patterns. *)
Definition creation_ops (df : Table) : list string :=
  filter is_creation_op (unique (labels df)).

Definition update_ops (df : Table) : list string :=
  filter is_update_op (unique (labels df)).

(** Lines 262, 361 and 461 (587-588 on [df_for_summary]). *)
Definition df_creations (df : Table) : Table := isin (creation_ops df) df.
Definition df_updates (df : Table) : Table := isin (update_ops df) df.
Definition df_services (df : Table) : Table := isin service_ops df.

(** Lines 266-269 (365-368 and 465-468 alike): the sums of both years over
    a subset, their difference and its percentage. *)
Definition figures (d : Table) : num * num * num * num :=
  let s24 := sum (column Y2024 d) in
  let s25 := sum (column Y2025 d) in
  let change := sub s25 s24 in
  (s24, s25, change, if neb s24 (int 0) then mul (div change s24) (int 100) else int 0).

(** Lines 590-592 (594-596 alike): the same sums on the Executive Summary,
    each behind [if not d.empty else 0]. *)
Definition summary_figures (d : Table) : num * num * num :=
  let s24 := if negb (empty d) then sum (column Y2024 d) else int 0 in
  let s25 := if negb (empty d) then sum (column Y2025 d) else int 0 in
  (s24, s25, change_pct s24 s25).

(** Lines 471-472: the service with the largest 2025 count, and that count. *)
Definition most_requested (d : Table) : result (string * num) :=
  (i <- idxmax (column Y2025 d) ;;
   name <- loc_label i d ;;
   Ok (name, max (column Y2025 d)))%result.

(** Lines 733-734: the operation the highlights name as the highest of
    2025, [top_ops.iloc[0]] with its label and its 2025 count. *)
Definition top_op (df_for_summary : Table) : result (string * num) :=
  (r <- iloc_first (top_ops df_for_summary) ;;
   Ok (operation_type r, count_2025 r))%result.

(** Lines 616-617: the arrow of a card points up when [change_pct >= 0]. *)
Definition arrow_up (pct : num) : bool := leb (int 0) pct.

(** Lines 646-647: the fourth card says "Growth" when
    [total_2025 > total_2024], "Decline" otherwise. *)
Definition growth (t24 t25 : num) : bool := ltb t24 t25.

End App.

(* ===================================================================== *)
(** ** dashRne.py *)
(* ===================================================================== *)

Module DashRne.

Local Open Scope result_scope.
Local Open Scope string_scope.

(** [load_data] (lines 32-35): the read and nothing else. *)
Definition load_data (src : source) : result RawFrame := read_excel src.

(** Line 63. *)
Definition df_filtered (df : Table) (selected_operations : list string) : Table :=
  match selected_operations with
  | _ :: _ => isin selected_operations df
  | [] => df
  end.

(** Data Overview, lines 73-75. *)
Definition total_2024 (df : Table) : num := sum (column Y2024 df).
Definition total_2025 (df : Table) : num := sum (column Y2025 df).

Definition change_pct (a b : num) : num := mul (div (sub b a) a) (int 100).

Definition grand_total : string := "المجموع".

(** Lines 77-78: two lookups added, neither under a [try]. *)
Definition crea (y : Year) (df : Table) : result num :=
  a <- values0 (loc_eq App.creation_total y df) ;;
  b <- values0 (loc_eq grand_total y df) ;;
  Ok (add a b).

Definition crea_2024 (df : Table) : result num := crea Y2024 df.
Definition crea_2025 (df : Table) : result num := crea Y2025 df.

(** Executive Summary, lines 251-256 and 274. *)
Definition df_for_summary (df : Table) : result Table :=
  last <- iloc_last df ;;
  Ok (if contains App.marker (operation_type last) then iloc_init df else df).

Definition summary_totals (df : Table) : result (num * num) :=
  d <- df_for_summary df ;;
  Ok (sum (column Y2024 d), sum (column Y2025 d)).

Definition top_ops (df_for_summary : Table) : Table := nlargest 5 Y2025 df_for_summary.

(** Lines 79-80: the total shown on the Data Overview, the sum of the column
    less the two looked-up rows. *)
Definition totalf (y : Year) (df : Table) : result num :=
  c <- crea y df ;; Ok (sub (sum (column y df)) c).

(** Lines 115-116 and 164-165: the labels that contain the pattern, taken
    from the column as it is (no [unique()]), and the rows with them. *)
Definition creation_ops (df : Table) : list string :=
  filter (contains "طلب تأسيس") (labels df).

Definition update_ops (df : Table) : list string :=
  filter (contains "تحيين") (labels df).

Definition df_creations (df : Table) : Table := isin (creation_ops df) df.
Definition df_updates (df : Table) : Table := isin (update_ops df) df.

(** Line 209. *)
Definition df_services (df : Table) : Table := isin App.service_ops df.

Definition most_requested_service : string := "استخراج مضمون".

(** Line 215: the 2025 count shown under "Most Requested Service", looked
    up in [df_services]. *)
Definition most_requested_count (df : Table) : result num :=
  values0 (loc_eq most_requested_service Y2025 (df_services df)).

End DashRne.

(* ===================================================================== *)
(** ** app.py on the label column as the sheet has it *)
(* ===================================================================== *)

Module Loaded.

Local Open Scope result_scope.
Local Open Scope string_scope.

(** A row as [load_data] of app.py returns it.  The two counts are numbers
    (line 105).  The label cell is what the sheet has there: a text, a
    number, or nothing (NaN) -- [dropna(how='all')] keeps a row whose label
    cell is empty as long as another cell of the row is not. *)
Record LRow : Type := mkLRow {
  label : cell;
  loaded_2024 : num;
  loaded_2025 : num
}.

Definition LTable : Type := list (nat * LRow).

Definition is_text (c : cell) : bool :=
  match c with
  | CStr _ => true
  | CNum _ => false
  end.

Definition all_texts (t : LTable) : bool :=
  forallb (fun r => is_text (label (snd r))) t.

(** The text of a label cell; a cell that is no text has none, and is read
    as the empty text. *)
Definition text (c : cell) : string :=
  match c with
  | CStr s => s
  | CNum _ => ""
  end.

(** The table as the computations see it that read the index and the counts
    only ([drop], [sum], the division) or compare a label with a text of the
    script ([==], [isin]): no text of the script is empty, so a cell that
    is no text equals none of them. *)
Definition table (t : LTable) : Table :=
  map (fun r => (fst r, mkRow (text (label (snd r)))
                          (loaded_2024 (snd r)) (loaded_2025 (snd r)))) t.

(** A table of texts, as a loaded table. *)
Definition of_table (df : Table) : LTable :=
  map (fun r => (fst r, mkLRow (CStr (operation_type (snd r)))
                          (count_2024 (snd r)) (count_2025 (snd r)))) df.

(** [df.empty] *)
Definition empty (t : LTable) : bool :=
  match t with
  | [] => true
  | _ :: _ => false
  end.

(** [df['نوع العملية']] *)
Definition labels (t : LTable) : list cell := map (fun r => label (snd r)) t.

(** Two cells that [unique()] takes for one value: equal texts, equal
    numbers, or two missing cells. *)
Definition same_cell (a b : cell) : bool :=
  match a, b with
  | CStr x, CStr y => String.eqb x y
  | CNum x, CNum y => (is_nan x && is_nan y) || eqb x y
  | _, _ => false
  end.

(** [Series.unique()] on the label column. *)
Fixpoint unique_from (seen : list cell) (l : list cell) : list cell :=
  match l with
  | [] => []
  | x :: l' =>
      if existsb (same_cell x) seen then unique_from seen l'
      else x :: unique_from (x :: seen) l'
  end.

Definition unique (l : list cell) : list cell := unique_from [] l.

(** [pattern in op]: TypeError when [op] is not a [str] (a float or an int
    is not iterable). *)
Definition in_op (pattern : string) (op : cell) : result bool :=
  match op with
  | CStr s => Ok (contains pattern s)
  | CNum _ => Raise TypeError
  end.

(** [a in op or b in op] *)
Definition in_op_or (a b : string) (op : cell) : result bool :=
  x <- in_op a op ;;
  if x then Ok true else in_op b op.

(** [[op for op in ops if a in op or b in op]] *)
Fixpoint comprehension (a b : string) (ops : list cell) : result (list string) :=
  match ops with
  | [] => Ok []
  | op :: ops' =>
      keep <- in_op_or a b op ;;
      rest <- comprehension a b ops' ;;
      Ok (if keep then text op :: rest else rest)
  end.

(** Creation Analysis, lines 259-269 and 346-349: the four figures of the
    cards, [None] when the page shows a warning instead.  What follows the
    figures on the page is in [App.creation_analysis]. *)
Definition creation_analysis (t : LTable) : result (option (num * num * num * num)) :=
  if negb (empty t) then
    creation_ops <- comprehension "طلب تأسيس" "إنشاء" (unique (labels t)) ;;
    let df_creations := isin creation_ops (table t) in
    if negb (Pandas.empty df_creations) then Ok (Some (App.figures df_creations))
    else Ok None
  else Ok None.

(** Modification Analysis, lines 358-368 and 443-446. *)
Definition modification_analysis (t : LTable) : result (option (num * num * num * num)) :=
  if negb (empty t) then
    update_ops <- comprehension "طلب عمليات" "تحديث" (unique (labels t)) ;;
    let df_updates := isin update_ops (table t) in
    if negb (Pandas.empty df_updates) then Ok (Some (App.figures df_updates))
    else Ok None
  else Ok None.

(** Data Overview, lines 161-166 and 249-250: the three numbers of the
    cards, [None] when the page shows "No data available".  Nothing here
    reads a label. *)
Definition data_overview (t : LTable) : result (option (num * num * num)) :=
  App.data_overview (table t).

(** [df.iloc[-1]] *)
Definition iloc_last (t : LTable) : result LRow :=
  match rev t with
  | [] => Raise IndexError
  | r :: _ => Ok (snd r)
  end.

(** Line 576:
    [df.iloc[:-1] if 'مجموع' in df.iloc[-1]['نوع العملية'] else df] *)
Definition df_for_summary (t : LTable) : result LTable :=
  last <- iloc_last t ;;
  cut <- in_op App.marker (label last) ;;
  Ok (if cut then removelast t else t).

(** Executive Summary, lines 574-606 and 716: the three numbers of the
    first card as the page gets to show them at line 608, after everything
    it computes before.  On an empty frame the page shows no card and
    raises NameError at line 716, where [insight_col2] is not bound. *)
Definition executive_summary_cards (t : LTable) : result (option (num * num * num)) :=
  if negb (empty t) then
    s <- df_for_summary t ;;
    c <- App.cards (table t) ;;
    creation_ops <- comprehension "طلب تأسيس" "إنشاء" (unique (labels s)) ;;
    update_ops <- comprehension "طلب عمليات" "تحديث" (unique (labels s)) ;;
    biggest_increase <- App.biggest_mover (table s) App.Increase ;;
    biggest_decrease <- App.biggest_mover (table s) App.Decrease ;;
    Ok (Some c)
  else Raise NameError.

End Loaded.

(* ===================================================================== *)
(** ** The specification's wording, for comparison *)
(* ===================================================================== *)

Module Spec.

(** The unconditional sum of a column: every value added, none skipped. *)
Definition plain_sum (s : Series) : num := fold_left add (values s) (int 0).

(** A table whose counts are all there. *)
Definition no_missing (df : Table) : Prop :=
  forall r, In r df ->
    is_nan (count_2024 (snd r)) = false /\ is_nan (count_2025 (snd r)) = false.

(** The rows of a table except those at the zero-based positions [ps]. *)
Definition without_positions (ps : list nat) (df : Table) : Table :=
  map snd
    (filter (fun p => negb (existsb (Nat.eqb (fst p)) ps))
       (combine (seq 0 (List.length df)) df)).

(** "The sums over all rows except those at positional indices 5, 8 and 15,
    and the guarded percent change". *)
Definition cards (df : Table) : num * num * num :=
  let d := without_positions [5; 8; 15] df in
  let t24 := sum (column Y2024 d) in
  let t25 := sum (column Y2025 d) in
  (t24, t25, App.change_pct t24 t25).

(** [r] is the first record of [df] whose operation type is [label]. *)
Definition first_with_label (label : string) (df : Table) (r : nat * Row) : Prop :=
  exists pre post,
    df = pre ++ r :: post
    /\ operation_type (snd r) = label
    /\ forall p, In p pre -> operation_type (snd p) <> label.

(** No record of [df] has the operation type [label]. *)
Definition no_label (label : string) (df : Table) : Prop :=
  forall r, In r df -> operation_type (snd r) <> label.

(** "The sums over all rows except those labelled 5, 8 and 15, and the
    guarded percent change". *)
Definition cards_by_label (df : Table) : num * num * num :=
  let d := filter (fun r => negb (existsb (Nat.eqb (fst r)) [5; 8; 15])) df in
  let t24 := sum (column Y2024 d) in
  let t25 := sum (column Y2025 d) in
  (t24, t25, App.change_pct t24 t25).

(** [l1] is an initial segment of [l2]. *)
Definition prefix (A : Type) (l1 l2 : list A) : Prop := exists l3, l2 = l1 ++ l3.

(** A count that is a number and not below zero. *)
Definition finite_nonneg (x : num) : Prop :=
  exists q : Qc, x = Fin q /\ (0 <= q)%Qc.

(** A table whose counts are all finite numbers. *)
Definition all_finite (df : Table) : Prop :=
  forall r, In r df ->
    is_finite (count_2024 (snd r)) = true /\ is_finite (count_2025 (snd r)) = true.

(** A row with no operation in either year. *)
Definition zero_row (r : nat * Row) : Prop :=
  count_2024 (snd r) = int 0 /\ count_2025 (snd r) = int 0.

End Spec.

(* ===================================================================== *)
(** ** Sample sheets and tables *)
(* ===================================================================== *)

Module Sample.

Local Open Scope string_scope.

Definition row (label : string) (c24 c25 : Z) : Row := mkRow label (int c24) (int c25).

(** The three-row table of the specification's scenario. *)
Definition abc : Table :=
  [(0, row "A" 10 12); (1, row "B" 20 18); (2, row "C" 5 5)].

Definition one_row : Table := [(0, row "A" 10 12)].

(** A table with the two total rows the lookups of the Data Overview ask
    for. *)
Definition with_totals : Table :=
  [(0, row "A" 10 12); (1, row "مجموع عمليات التأسيس" 30 40); (2, row "المجموع" 100 120)].

(** Sixteen rows labelled 0 to 15; the last label has no "total" in it. *)
Definition sixteen : Table :=
  map (fun i => (i, row "A" (Z.of_nat i) 1)) (seq 0 16).

(** Sixteen rows labelled 1 to 16, as left when the first row of a sheet of
    seventeen is empty and [dropna] removes it. *)
Definition shifted : Table :=
  map (fun i => (S i, row "A" (Z.of_nat i) 1)) (seq 0 16).

(** A service that did not exist in 2024. *)
Definition new_service : Row := row "ترسيم رهون" 0 5.

(** A sheet with the right header and a negative count. *)
Definition negative_sheet : source :=
  Workbook ["نوع العملية"; "2024 العدد"; "2025 العدد"]
           [[CStr "A"; CNum (int (-5)); CNum (int 7)]].

(** A sheet without the 2025 column. *)
Definition wrong_header : source :=
  Workbook ["نوع العملية"; "2024 العدد"] [[CStr "A"; CNum (int 3)]].

(** Three services; the second did not exist in 2024, the third had no
    operation in either year. *)
Definition services : Table :=
  [(3, row "ترسيم رهون" 10 12); (4, row "ترسيم إيجار" 0 5);
   (7, row "استخراج مضمون" 0 0)].

(** Three rows and a grand total at the end. *)
Definition with_grand_total : Table :=
  [(0, row "A" 10 12); (1, row "B" 20 18); (2, row "C" 5 5);
   (3, row "المجموع" 35 35)].

(** A sheet of three rows, the middle one empty. *)
Definition gap_header : list string := ["نوع العملية"; "2024 العدد"; "2025 العدد"].

Definition gap_rows : list (list cell) :=
  [[CStr "A"; CStr "x"; CNum (int 7)];
   [CNum NaN; CNum NaN; CNum NaN];
   [CStr "B"; CNum (int 3); CNum NaN]].

(** A parser that recognises no text as a number. *)
Definition no_text_number : string -> num := fun _ => NaN.

(** Two kinds of creation requests and another operation. *)
Definition creations : Table :=
  [(0, row "طلب تأسيس" 10 12); (1, row "B" 20 18); (2, row "إنشاء" 0 4)].

(** The same with a grand total at the end. *)
Definition creations_total : Table :=
  (creations ++ [(3, row "المجموع" 30 34)])%list.

(** A creation request, and a row whose label cell is empty. *)
Definition blank_label : Loaded.LTable :=
  [(0, Loaded.mkLRow (CStr "طلب تأسيس") (int 10) (int 12));
   (1, Loaded.mkLRow (CNum NaN) (int 3) (int 4))].

(** Sixteen rows labelled 0 to 15, none with an operation in either year. *)
Definition sixteen_zeros : Table :=
  map (fun i => (i, row "A" 0 0)) (seq 0 16).

(** Sixteen rows labelled 0 to 15, the label cell of the last one empty. *)
Definition sixteen_blank_last : Loaded.LTable :=
  (Loaded.of_table (removelast sixteen)
   ++ [(15, Loaded.mkLRow (CNum NaN) (int 15) (int 1))])%list.

End Sample.

(* ===================================================================== *)
(** * Lemmas and theorems *)
(* ===================================================================== *)

(** ** Numbers *)

(** Two finite values are equal as soon as their rationals are; [num_eq]
    closes an equation between computed values on that ground. *)
Ltac num_eq :=
  repeat match goal with
         | |- Fin _ = Fin _ => apply (f_equal Fin); apply Qc_is_canon; reflexivity
         | |- Ok _ = Ok _ => apply (f_equal Ok)
         | |- Some _ = Some _ => apply (f_equal Some)
         | |- (_, _) = (_, _) => apply f_equal2
         | |- _ = _ => reflexivity
         end.

Lemma Qc_leb_le (a b : Qc) : Qc_leb a b = true <-> (a <= b)%Qc.
Proof.
  unfold Qc_leb. rewrite Qcle_alt.
  destruct (a ?= b)%Qc; split; intros H; try reflexivity; try discriminate.
  exfalso. apply H. reflexivity.
Qed.

Lemma Qc_leb_total (a b : Qc) : Qc_leb a b = true \/ Qc_leb b a = true.
Proof.
  rewrite !Qc_leb_le.
  destruct (Qclt_le_dec a b) as [H | H].
  - left. apply Qclt_le_weak. exact H.
  - right. exact H.
Qed.

Lemma Qc_leb_trans (a b c : Qc) :
  Qc_leb a b = true -> Qc_leb b c = true -> Qc_leb a c = true.
Proof. rewrite !Qc_leb_le. apply Qcle_trans. Qed.

Lemma Qc_eq_bool_refl (a : Qc) : Qc_eq_bool a a = true.
Proof. unfold Qc_eq_bool. destruct (Qc_eq_dec a a); congruence. Qed.

Lemma Qc_eq_bool_neq (a b : Qc) : a <> b -> Qc_eq_bool a b = false.
Proof. intros H. unfold Qc_eq_bool. destruct (Qc_eq_dec a b); congruence. Qed.

Lemma desc_leb_total (x y : num) : desc_leb x y = true \/ desc_leb y x = true.
Proof.
  destruct x as [a | | | ], y as [b | | | ]; simpl; auto.
  destruct (Qc_leb_total a b); auto.
Qed.

Lemma desc_leb_trans (x y z : num) :
  desc_leb x y = true -> desc_leb y z = true -> desc_leb x z = true.
Proof.
  destruct x as [a | | | ], y as [b | | | ], z as [c | | | ]; simpl;
    try reflexivity; try discriminate.
  intros H1 H2. exact (Qc_leb_trans _ _ _ H2 H1).
Qed.

Lemma desc_leb_refl (x : num) : desc_leb x x = true.
Proof. destruct (desc_leb_total x x); assumption. Qed.

(** Without missing values the descending order is [>=]. *)
Lemma desc_leb_geb (x y : num) :
  is_nan x = false -> is_nan y = false -> desc_leb x y = leb y x.
Proof. destruct x, y; simpl; intros; congruence. Qed.

(** Finite values tie exactly when they are equal. *)
Lemma tie_fin (a b : Qc) : tie (Fin a) (Fin b) = true <-> a = b.
Proof.
  unfold tie. simpl. rewrite andb_true_iff, !Qc_leb_le. split.
  - intros [H1 H2]. apply Qcle_antisym; assumption.
  - intros ->. split; apply Qcle_refl.
Qed.

(** ** Sorting: [sort_desc] is a stable sort *)

Section SortDesc.

Variable A : Type.
Variable key : A -> num.

Let before (a b : A) : Prop := desc_leb (key a) (key b) = true.

Lemma insert_desc_length (x : A) (l : list A) :
  List.length (insert_desc key x l) = S (List.length l).
Proof.
  induction l as [| y l IH]; simpl; [reflexivity |].
  destruct (desc_leb (key x) (key y)); simpl; [reflexivity |].
  rewrite IH. reflexivity.
Qed.

Lemma sort_desc_length (l : list A) :
  List.length (sort_desc key l) = List.length l.
Proof.
  induction l as [| x l IH]; simpl; [reflexivity |].
  rewrite insert_desc_length. fold (sort_desc key l). rewrite IH. reflexivity.
Qed.

Lemma insert_desc_perm (x : A) (l : list A) :
  Permutation (x :: l) (insert_desc key x l).
Proof.
  induction l as [| y l IH]; simpl; [apply Permutation_refl |].
  destruct (desc_leb (key x) (key y)); [apply Permutation_refl |].
  eapply Permutation_trans; [apply perm_swap |].
  apply perm_skip. exact IH.
Qed.

Lemma sort_desc_perm (l : list A) : Permutation l (sort_desc key l).
Proof.
  induction l as [| x l IH]; simpl; [apply Permutation_refl |].
  eapply Permutation_trans; [| apply insert_desc_perm].
  apply perm_skip. exact IH.
Qed.

Lemma insert_desc_sorted (x : A) (l : list A) :
  StronglySorted before l -> StronglySorted before (insert_desc key x l).
Proof.
  induction l as [| y l IH]; intros Hs; simpl.
  - constructor; constructor.
  - destruct (desc_leb (key x) (key y)) eqn:E.
    + constructor; [exact Hs |].
      constructor; [exact E |].
      apply StronglySorted_inv in Hs. destruct Hs as [_ Hy].
      eapply Forall_impl; [| exact Hy].
      intros b Hb. unfold before in *. eapply desc_leb_trans; eassumption.
    + apply StronglySorted_inv in Hs. destruct Hs as [Hl Hy].
      constructor; [apply IH; exact Hl |].
      assert (Hyx : before y x).
      { unfold before. destruct (desc_leb_total (key x) (key y)); congruence. }
      eapply Permutation_Forall; [apply insert_desc_perm |].
      constructor; assumption.
Qed.

Lemma sort_desc_sorted (l : list A) : StronglySorted before (sort_desc key l).
Proof.
  induction l as [| x l IH]; simpl; [constructor |].
  apply insert_desc_sorted. exact IH.
Qed.

(** Stability: the elements that tie with [k] keep their order. *)
Lemma insert_desc_ties (k : num) (x : A) (l : list A) :
  filter (fun a => tie (key a) k) (insert_desc key x l)
  = filter (fun a => tie (key a) k) (x :: l).
Proof.
  induction l as [| y l IH]; [reflexivity |].
  simpl insert_desc. destruct (desc_leb (key x) (key y)) eqn:E; [reflexivity |].
  simpl filter in *. rewrite IH.
  destruct (tie (key x) k) eqn:Tx; [| reflexivity].
  destruct (tie (key y) k) eqn:Ty; [| reflexivity].
  exfalso. unfold tie in Tx, Ty.
  apply andb_true_iff in Tx. apply andb_true_iff in Ty.
  destruct Tx as [Tx _]. destruct Ty as [_ Ty].
  rewrite (desc_leb_trans _ _ _ Tx Ty) in E. discriminate.
Qed.

Lemma sort_desc_ties (k : num) (l : list A) :
  filter (fun a => tie (key a) k) (sort_desc key l)
  = filter (fun a => tie (key a) k) l.
Proof.
  induction l as [| x l IH]; [reflexivity |].
  simpl sort_desc. rewrite insert_desc_ties. simpl. fold (sort_desc key l).
  rewrite IH. reflexivity.
Qed.

End SortDesc.

Lemma filter_firstn_prefix (A : Type) (p : A -> bool) (n : nat) (l : list A) :
  Spec.prefix (filter p (firstn n l)) (filter p l).
Proof.
  exists (filter p (skipn n l)).
  rewrite <- filter_app, firstn_skipn. reflexivity.
Qed.

Lemma StronglySorted_app_inv (A : Type) (R : A -> A -> Prop) (l1 l2 : list A) :
  StronglySorted R (l1 ++ l2) ->
  StronglySorted R l1 /\ forall a b, In a l1 -> In b l2 -> R a b.
Proof.
  induction l1 as [| x l1 IH]; simpl; intros Hs.
  - split; [constructor | intros a b []].
  - apply StronglySorted_inv in Hs. destruct Hs as [Hs Hx].
    destruct (IH Hs) as [H1 H2]. split.
    + constructor; [exact H1 |].
      apply Forall_app in Hx. tauto.
    + intros a b [-> | Ha] Hb.
      * rewrite Forall_forall in Hx. apply Hx. apply in_or_app. right. exact Hb.
      * apply H2; assumption.
Qed.

Section NLargest.

Variables (df : Table) (n : nat) (y : Year).

Let key (r : nat * Row) : num := count y (snd r).

Lemma nlargest_length : List.length (nlargest n y df) = Nat.min n (List.length df).
Proof.
  unfold nlargest. rewrite length_firstn, sort_desc_length. reflexivity.
Qed.

(** The result and the rows left out: together the table, and no row left
    out is larger than a row of the result. *)
Lemma nlargest_split :
  StronglySorted (fun a b => desc_leb (key a) (key b) = true) (nlargest n y df)
  /\ exists rest : Table,
       Permutation df (nlargest n y df ++ rest)
       /\ forall a b, In a (nlargest n y df) -> In b rest ->
            desc_leb (key a) (key b) = true.
Proof.
  unfold nlargest. fold key.
  pose proof (sort_desc_sorted key df) as Hs.
  rewrite <- (firstn_skipn n (sort_desc key df)) in Hs.
  apply StronglySorted_app_inv in Hs. destruct Hs as [Hfirst Hrest].
  split; [exact Hfirst |].
  exists (skipn n (sort_desc key df)). split; [| exact Hrest].
  rewrite firstn_skipn. apply sort_desc_perm.
Qed.

Lemma nlargest_keeps_ties (k : num) :
  Spec.prefix (filter (fun r => tie (key r) k) (nlargest n y df))
              (filter (fun r => tie (key r) k) df).
Proof.
  unfold nlargest. fold key.
  rewrite <- (sort_desc_ties key k df). apply filter_firstn_prefix.
Qed.

Lemma nlargest_In (a : nat * Row) : In a (nlargest n y df) -> In a df.
Proof.
  intros Ha. destruct nlargest_split as (_ & rest & Hperm & _).
  eapply Permutation_in; [apply Permutation_sym; exact Hperm |].
  apply in_or_app. left. exact Ha.
Qed.

(** On a table without missing counts the order of the result is [>=]. *)
Lemma nlargest_descending :
  Spec.no_missing df ->
  StronglySorted (fun a b => leb (key b) (key a) = true) (nlargest n y df).
Proof.
  intros Hv.
  assert (Hin : forall a, In a (nlargest n y df) -> is_nan (key a) = false).
  { intros a Ha. destruct (Hv a (nlargest_In a Ha)) as [H24 H25].
    unfold key. destruct y; assumption. }
  destruct nlargest_split as [Hs _].
  revert Hs Hin. generalize (nlargest n y df) as l.
  intros l Hs. induction Hs as [| a l Hl IH Ha]; intros Hin; [constructor |].
  constructor.
  - apply IH. intros b Hb. apply Hin. right. exact Hb.
  - rewrite Forall_forall in *. intros b Hb.
    rewrite <- desc_leb_geb.
    + apply Ha. exact Hb.
    + apply Hin. left. reflexivity.
    + apply Hin. right. exact Hb.
Qed.

End NLargest.

(** C6.  [nlargest n year df] -- the [top_n] of the specification, called
    with [n = 5] and the 2025 column for [top_ops] -- returns exactly
    [min n (len df)] rows, in descending order of the year's count (a
    missing count last), the rows of equal count in their original order;
    the rows it leaves out are none of them larger than a row it returns. *)
Theorem nlargest_top_n (df : Table) (n : nat) (y : Year) :
  List.length (nlargest n y df) = Nat.min n (List.length df)
  /\ StronglySorted
       (fun a b => desc_leb (count y (snd a)) (count y (snd b)) = true)
       (nlargest n y df)
  /\ (forall k : num,
        Spec.prefix
          (filter (fun r => tie (count y (snd r)) k) (nlargest n y df))
          (filter (fun r => tie (count y (snd r)) k) df))
  /\ exists rest : Table,
       Permutation df (nlargest n y df ++ rest)
       /\ forall a b, In a (nlargest n y df) -> In b rest ->
            desc_leb (count y (snd a)) (count y (snd b)) = true.
Proof.
  split; [apply nlargest_length |].
  destruct (nlargest_split df n y) as [Hs Hrest].
  split; [exact Hs |]. split; [| exact Hrest].
  intros k. apply nlargest_keeps_ties.
Qed.

(** The two rows of the scenario table with the largest 2025 counts. *)
Lemma nlargest_top_n_witness :
  List.length (nlargest 2 Y2025 Sample.abc) = 2
  /\ nlargest 2 Y2025 Sample.abc = [(1, Sample.row "B" 20 18); (0, Sample.row "A" 10 12)].
Proof.
  split.
  - apply (proj1 (nlargest_top_n Sample.abc 2 Y2025)).
  - reflexivity.
Defined.

(** Equal counts: the rows come out in the order they went in. *)
Example nlargest_ties :
  nlargest 2 Y2024
    [(0, Sample.row "A" 1 0); (1, Sample.row "B" 7 0);
     (2, Sample.row "C" 7 0); (3, Sample.row "D" 7 0)]
  = [(1, Sample.row "B" 7 0); (2, Sample.row "C" 7 0)].
Proof. reflexivity. Qed.

(** ** Filtering by labels *)

Lemma existsb_eqb_In (x : string) (l : list string) :
  existsb (String.eqb x) l = true <-> In x l.
Proof.
  rewrite existsb_exists. split.
  - intros [y [Hy E]]. apply String.eqb_eq in E. subst y. exact Hy.
  - intros H. exists x. split; [exact H | apply String.eqb_refl].
Qed.

Lemma unique_from_In (l seen : list string) (x : string) :
  In x l -> In x seen \/ In x (unique_from seen l).
Proof.
  revert seen. induction l as [| y l IH]; intros seen; simpl; [tauto |].
  intros [-> | Hx].
  - destruct (existsb (String.eqb x) seen) eqn:E.
    + left. apply existsb_eqb_In. exact E.
    + right. left. reflexivity.
  - destruct (existsb (String.eqb y) seen) eqn:E.
    + apply IH. exact Hx.
    + destruct (IH (y :: seen) Hx) as [[-> | H] | H].
      * right. left. reflexivity.
      * left. exact H.
      * right. right. exact H.
Qed.

(** Every value of a column is among its [unique()] values. *)
Lemma unique_In (l : list string) (x : string) : In x l -> In x (unique l).
Proof.
  intros H. destruct (unique_from_In l [] x H) as [[] | H']. exact H'.
Qed.

Lemma isin_In (ops : list string) (df : Table) (r : nat * Row) :
  In r (isin ops df) <-> In r df /\ In (operation_type (snd r)) ops.
Proof. unfold isin. rewrite filter_In, existsb_eqb_In. reflexivity. Qed.

Lemma filter_all (A : Type) (p : A -> bool) (l : list A) :
  (forall a, In a l -> p a = true) -> filter p l = l.
Proof.
  induction l as [| a l IH]; intros H; simpl; [reflexivity |].
  rewrite (H a (or_introl eq_refl)). f_equal.
  apply IH. intros b Hb. apply H. right. exact Hb.
Qed.

Lemma isin_all (ops : list string) (df : Table) :
  (forall r, In r df -> In (operation_type (snd r)) ops) -> isin ops df = df.
Proof.
  intros H. apply filter_all. intros r Hr.
  apply existsb_eqb_In. apply H. exact Hr.
Qed.

Lemma isin_unique (df : Table) : isin (unique (labels df)) df = df.
Proof.
  apply isin_all. intros r Hr. apply unique_In.
  unfold labels. apply (in_map (fun r => operation_type (snd r))). exact Hr.
Qed.

(** The mask alone selects nothing for an empty list of labels. *)
Lemma isin_nil (df : Table) : isin [] df = [].
Proof. induction df as [| r df IH]; simpl; [reflexivity | exact IH]. Qed.

(** C1, as the scripts have it.  With an empty selection [df_filtered] is
    the whole table: the filter is switched off, not applied.  With all the
    labels of the table selected it is the table again, row for row.  With
    any other selection it is the rows whose label is selected. *)
Theorem df_filtered_spec (df : Table) :
  App.df_filtered df [] = df
  /\ DashRne.df_filtered df [] = df
  /\ App.df_filtered df (App.operation_types df) = df
  /\ DashRne.df_filtered df (unique (labels df)) = df
  /\ forall op ops r,
       (In r (App.df_filtered df (op :: ops))
          <-> In r df /\ In (operation_type (snd r)) (op :: ops))
       /\ (In r (DashRne.df_filtered df (op :: ops))
          <-> In r df /\ In (operation_type (snd r)) (op :: ops)).
Proof.
  split; [| split; [| split; [| split]]].
  - destruct df; reflexivity.
  - reflexivity.
  - unfold App.df_filtered, App.operation_types.
    destruct df as [| r df]; [reflexivity |].
    simpl negb. cbv iota.
    rewrite isin_unique. destruct (unique (labels (r :: df))); reflexivity.
  - unfold DashRne.df_filtered.
    destruct (unique (labels df)) eqn:E; [reflexivity |].
    rewrite <- E. apply isin_unique.
  - intros op ops r. split.
    + unfold App.df_filtered. destruct df as [| r0 df]; simpl negb; cbv iota.
      * simpl. tauto.
      * apply isin_In.
    + apply isin_In.
Qed.

(** C1 as stated fails: a table of one row filtered by no label is that row,
    not the empty table. *)
Lemma df_filtered_no_label_keeps_all :
  App.df_filtered Sample.one_row [] <> []
  /\ DashRne.df_filtered Sample.one_row [] <> [].
Proof. split; discriminate. Qed.

(** ** Looking a label up *)

Lemma filter_none (A : Type) (p : A -> bool) (l : list A) :
  (forall a, In a l -> p a = false) -> filter p l = [].
Proof.
  induction l as [| a l IH]; intros H; simpl; [reflexivity |].
  rewrite (H a (or_introl eq_refl)). apply IH.
  intros b Hb. apply H. right. exact Hb.
Qed.

Lemma has_label_false (label : string) (r : nat * Row) :
  operation_type (snd r) <> label -> has_label label r = false.
Proof. intros H. unfold has_label. apply String.eqb_neq. exact H. Qed.

Lemma loc_eq_first (label : string) (y : Year) (df : Table) (r : nat * Row) :
  Spec.first_with_label label df r ->
  exists rest, loc_eq label y df = (fst r, count y (snd r)) :: rest.
Proof.
  intros (pre & post & -> & Hl & Hpre).
  unfold loc_eq. rewrite filter_app.
  rewrite (filter_none (has_label label) pre).
  - simpl. unfold has_label at 1. rewrite Hl, String.eqb_refl. simpl.
    eexists. reflexivity.
  - intros p Hp. apply has_label_false. apply Hpre. exact Hp.
Qed.

Lemma loc_eq_none (label : string) (y : Year) (df : Table) :
  Spec.no_label label df -> loc_eq label y df = [].
Proof.
  intros H. unfold loc_eq. rewrite filter_none; [reflexivity |].
  intros r Hr. apply has_label_false. apply H. exact Hr.
Qed.

Lemma lookup_value_first (label : string) (y : Year) (df : Table) (r : nat * Row) :
  Spec.first_with_label label df r ->
  App.lookup_value df label y = Ok (count y (snd r)).
Proof.
  intros H. unfold App.lookup_value, values0.
  destruct (loc_eq_first y H) as [rest ->]. reflexivity.
Qed.

Lemma lookup_value_none (label : string) (y : Year) (df : Table) :
  Spec.no_label label df -> App.lookup_value df label y = Raise IndexError.
Proof.
  intros H. unfold App.lookup_value. rewrite loc_eq_none by exact H. reflexivity.
Qed.

(** C3, as the scripts have it.  The lookup expression returns the count of
    the first record with the label and raises IndexError when there is
    none.  app.py catches that error on the Data Overview and goes on with
    0 for both years; dashRne.py lets it reach the caller. *)
Theorem lookup_value_spec (df : Table) (label : string) (y : Year) :
  (forall r, Spec.first_with_label label df r ->
     App.lookup_value df label y = Ok (count y (snd r)))
  /\ (Spec.no_label label df -> App.lookup_value df label y = Raise IndexError)
  /\ (forall r, Spec.first_with_label App.creation_total df r ->
        App.crea df = Ok (count_2024 (snd r), count_2025 (snd r)))
  /\ (Spec.no_label App.creation_total df -> App.crea df = Ok (int 0, int 0))
  /\ (forall r t,
        Spec.first_with_label App.creation_total df r ->
        Spec.first_with_label DashRne.grand_total df t ->
        DashRne.crea y df = Ok (add (count y (snd r)) (count y (snd t))))
  /\ (Spec.no_label App.creation_total df \/ Spec.no_label DashRne.grand_total df ->
        DashRne.crea y df = Raise IndexError).
Proof.
  split; [| split; [| split; [| split; [| split]]]].
  - intros r H. apply lookup_value_first. exact H.
  - apply lookup_value_none.
  - intros r H. unfold App.crea.
    rewrite (lookup_value_first Y2024 H), (lookup_value_first Y2025 H).
    reflexivity.
  - intros H. unfold App.crea.
    rewrite (lookup_value_none Y2024 H). reflexivity.
  - intros r t Hr Ht. unfold DashRne.crea.
    fold (App.lookup_value df App.creation_total y).
    fold (App.lookup_value df DashRne.grand_total y).
    rewrite (lookup_value_first y Hr), (lookup_value_first y Ht). reflexivity.
  - intros H. unfold DashRne.crea.
    fold (App.lookup_value df App.creation_total y).
    fold (App.lookup_value df DashRne.grand_total y).
    destruct H as [H | H].
    + rewrite (lookup_value_none y H). reflexivity.
    + rewrite (lookup_value_none y H).
      unfold App.lookup_value, values0.
      destruct (values (loc_eq App.creation_total y df)); reflexivity.
Qed.

(** The lookups of both scripts on a table that has the two total rows. *)
Lemma lookup_value_spec_witness :
  App.crea Sample.with_totals = Ok (int 30, int 40)
  /\ DashRne.crea Y2025 Sample.with_totals = Ok (add (int 40) (int 120)).
Proof.
  split.
  - apply (proj1 (proj2 (proj2 (lookup_value_spec Sample.with_totals "" Y2024)))
             (1, Sample.row App.creation_total 30 40)).
    exists [(0, Sample.row "A" 10 12)], [(2, Sample.row DashRne.grand_total 100 120)].
    split; [reflexivity |]. split; [reflexivity |].
    intros p [<- | []]. discriminate.
  - apply (proj1 (proj2 (proj2 (proj2 (proj2
             (lookup_value_spec Sample.with_totals "" Y2025)))))
             (1, Sample.row App.creation_total 30 40)
             (2, Sample.row DashRne.grand_total 100 120)).
    + exists [(0, Sample.row "A" 10 12)], [(2, Sample.row DashRne.grand_total 100 120)].
      split; [reflexivity |]. split; [reflexivity |].
      intros p [<- | []]. discriminate.
    + exists [(0, Sample.row "A" 10 12); (1, Sample.row App.creation_total 30 40)], [].
      split; [reflexivity |]. split; [reflexivity |].
      intros p [<- | [<- | []]]; discriminate.
Defined.

(** C3 as stated fails: the scenario table has no creation total, and the
    lookup of the Data Overview of app.py answers 0 for both years. *)
Lemma crea_missing_label_is_zero :
  Spec.no_label App.creation_total Sample.abc
  /\ App.crea Sample.abc = Ok (int 0, int 0).
Proof.
  split; [| reflexivity].
  intros r [<- | [<- | [<- | []]]]; discriminate.
Qed.

(** ** Totals *)

Lemma drop_nil (df : Table) : drop [] df = Ok df.
Proof.
  unfold drop. simpl. rewrite filter_all; reflexivity.
Qed.

Lemma drop_present (ks : list nat) (df : Table) :
  (forall k, In k ks -> In k (map fst df)) ->
  drop ks df = Ok (filter (fun r => negb (existsb (Nat.eqb (fst r)) ks)) df).
Proof.
  intros H. unfold drop.
  replace (forallb (fun k => existsb (Nat.eqb k) (map fst df)) ks) with true;
    [reflexivity |].
  symmetry. apply forallb_forall. intros k Hk.
  apply existsb_exists. exists k. split; [apply H; exact Hk | apply Nat.eqb_refl].
Qed.

Lemma drop_absent (ks : list nat) (df : Table) :
  (exists k, In k ks /\ ~ In k (map fst df)) -> drop ks df = Raise KeyError.
Proof.
  intros (k & Hk & Hno). unfold drop.
  destruct (forallb (fun k => existsb (Nat.eqb k) (map fst df)) ks) eqn:E;
    [| reflexivity].
  exfalso. apply Hno.
  rewrite forallb_forall in E. specialize (E k Hk).
  apply existsb_exists in E. destruct E as (k' & Hin & Heq).
  apply Nat.eqb_eq in Heq. subst k'. exact Hin.
Qed.

Lemma fold_sum_plain (l : list num) (acc : num) :
  (forall x, In x l -> is_nan x = false) ->
  fold_left (fun a x => if is_nan x then a else add a x) l acc = fold_left add l acc.
Proof.
  revert acc. induction l as [| x l IH]; intros acc H; simpl; [reflexivity |].
  rewrite (H x (or_introl eq_refl)). apply IH.
  intros z Hz. apply H. right. exact Hz.
Qed.

Lemma sum_plain (y : Year) (df : Table) :
  Spec.no_missing df -> sum (column y df) = Spec.plain_sum (column y df).
Proof.
  intros H. unfold sum, Spec.plain_sum. apply fold_sum_plain.
  intros x Hx. unfold values, column in Hx. rewrite map_map in Hx.
  apply in_map_iff in Hx. destruct Hx as (r & <- & Hr).
  destruct (H r Hr) as [H24 H25]. destruct y; assumption.
Qed.

(** The sum of finite values is the finite value of their rational sum. *)
Lemma plain_sum_finite (qs : list Qc) (acc : Qc) :
  fold_left add (map Fin qs) (Fin acc) = Fin (fold_left Qcplus qs acc).
Proof.
  revert acc. induction qs as [| q qs IH]; intros acc; simpl; [reflexivity |].
  apply IH.
Qed.

(** C7.  With nothing excluded, [total] is the pair of the sums of the two
    count columns over all rows, as dashRne.py takes them (lines 73-74); on
    a table whose counts are all there these are the plain sums, nothing
    skipped; and the total of the empty table is (0, 0). *)
Theorem total_no_exclusion (df : Table) :
  App.total df [] = Ok (DashRne.total_2024 df, DashRne.total_2025 df)
  /\ (Spec.no_missing df ->
        App.total df []
        = Ok (Spec.plain_sum (column Y2024 df), Spec.plain_sum (column Y2025 df)))
  /\ App.total [] [] = Ok (int 0, int 0).
Proof.
  assert (H : App.total df [] = Ok (DashRne.total_2024 df, DashRne.total_2025 df)).
  { unfold App.total, App.sum_without. rewrite drop_nil. reflexivity. }
  split; [exact H |]. split; [| reflexivity].
  intros Hv. rewrite H. unfold DashRne.total_2024, DashRne.total_2025.
  rewrite !sum_plain by exact Hv. reflexivity.
Qed.

(** The scenario table: both years add up to 35. *)
Lemma total_no_exclusion_witness :
  App.total Sample.abc []
  = Ok (Spec.plain_sum (column Y2024 Sample.abc),
        Spec.plain_sum (column Y2025 Sample.abc))
  /\ Spec.plain_sum (column Y2024 Sample.abc) = int 35
  /\ Spec.plain_sum (column Y2025 Sample.abc) = int 35.
Proof.
  split; [| split].
  - apply (proj1 (proj2 (total_no_exclusion Sample.abc))).
    intros r [<- | [<- | [<- | []]]]; split; reflexivity.
  - apply (f_equal Fin). apply Qc_is_canon. reflexivity.
  - apply (f_equal Fin). apply Qc_is_canon. reflexivity.
Defined.

(** ** The cards of the Data Overview and of the Executive Summary *)

Lemma iloc_last_nonempty (df : Table) :
  df <> [] -> exists last, iloc_last df = Ok last.
Proof.
  intros H. unfold iloc_last. destruct (rev df) as [| r l] eqn:E.
  - exfalso. apply H. rewrite <- (rev_involutive df), E. reflexivity.
  - exists (snd r). reflexivity.
Qed.

Lemma filter_by_position (p : nat -> bool) (df : Table) (idx : list nat) :
  map fst df = idx ->
  map snd (filter (fun q => p (fst q)) (combine idx df))
  = filter (fun r => p (fst r)) df.
Proof.
  revert idx. induction df as [| r df IH]; intros idx H.
  - destruct idx; reflexivity.
  - destruct idx as [| i idx]; [discriminate |].
    simpl in H. injection H as Hi Hidx. simpl.
    rewrite <- Hi. destruct (p (fst r)); simpl; rewrite (IH idx Hidx); reflexivity.
Qed.

Lemma without_positions_labels (ks : list nat) (df : Table) :
  map fst df = seq 0 (List.length df) ->
  Spec.without_positions ks df
  = filter (fun r => negb (existsb (Nat.eqb (fst r)) ks)) df.
Proof.
  intros H. unfold Spec.without_positions.
  apply (filter_by_position (fun i => negb (existsb (Nat.eqb i) ks)) df H).
Qed.

Lemma cards_present (df : Table) :
  (forall k, In k [5; 8; 15] -> In k (map fst df)) ->
  App.cards df = Ok (Spec.cards_by_label df).
Proof.
  intros H. unfold App.cards, App.total_2024, App.total_2025, App.sum_without.
  rewrite (drop_present _ _ H). reflexivity.
Qed.

Lemma cards_absent (df : Table) :
  (exists k, In k [5; 8; 15] /\ ~ In k (map fst df)) ->
  App.cards df = Raise KeyError.
Proof.
  intros H. unfold App.cards, App.total_2024, App.sum_without.
  rewrite (drop_absent _ _ H). reflexivity.
Qed.

Lemma data_overview_by_label (df : Table) :
  (forall k, In k [5; 8; 15] -> In k (map fst df)) ->
  App.data_overview df = Ok (Some (Spec.cards_by_label df)).
Proof.
  intros H. unfold App.data_overview.
  destruct df as [| r df].
  - exfalso. apply (H 5). left. reflexivity.
  - cbn [negb empty]. rewrite cards_present by exact H. reflexivity.
Qed.

(** *** The label cells *)

Lemma table_of_table (df : Table) : Loaded.table (Loaded.of_table df) = df.
Proof.
  unfold Loaded.table, Loaded.of_table. rewrite map_map.
  rewrite <- (map_id df) at 2. apply map_ext.
  intros [i [l a b]]. reflexivity.
Qed.

(** On label cells that are all texts the typed table loses nothing. *)
Lemma of_table_table (t : Loaded.LTable) :
  Loaded.all_texts t = true -> Loaded.of_table (Loaded.table t) = t.
Proof.
  unfold Loaded.all_texts, Loaded.of_table, Loaded.table.
  induction t as [| [i [c a b]] t IH]; intros H; [reflexivity |].
  cbn [forallb fst snd Loaded.label] in H. apply andb_true_iff in H.
  destruct H as [Hc Ht]. cbn [map]. rewrite (IH Ht).
  destruct c; [discriminate | reflexivity].
Qed.

Lemma table_index (t : Loaded.LTable) : map fst (Loaded.table t) = map fst t.
Proof. unfold Loaded.table. rewrite map_map. reflexivity. Qed.

Lemma table_length (t : Loaded.LTable) :
  List.length (Loaded.table t) = List.length t.
Proof. unfold Loaded.table. apply length_map. Qed.

Lemma table_nonempty (t : Loaded.LTable) :
  t <> [] -> empty (Loaded.table t) = false /\ Loaded.empty t = false.
Proof. destruct t; [contradiction | intros _; split; reflexivity]. Qed.

Lemma loaded_last (t : Loaded.LTable) :
  t <> [] -> exists last, Loaded.iloc_last t = Ok last.
Proof.
  intros H. unfold Loaded.iloc_last. destruct (rev t) as [| r l] eqn:E.
  - exfalso. apply H. rewrite <- (rev_involutive t), E. reflexivity.
  - exists (snd r). reflexivity.
Qed.

(** The Data Overview of a table that is not empty shows its cards exactly
    when [df.drop([5, 8, 15])] finds the three labels. *)
Lemma loaded_overview_cards (t : Loaded.LTable) :
  t <> [] ->
  Loaded.data_overview t
  = bind (App.cards (Loaded.table t)) (fun c => Ok (Some c)).
Proof.
  intros H. unfold Loaded.data_overview, App.data_overview.
  rewrite (proj1 (table_nonempty H)). reflexivity.
Qed.

(** C10, as app.py has it.  On a table that is not empty, whenever the
    Executive Summary gets as far as its cards, the Data Overview shows the
    same two totals and the same guarded change.  The Data Overview shows
    them when the index has the labels 5, 8 and 15: the sums over the rows
    labelled otherwise, which are the rows at other positions when the
    index is 0, 1, 2, ... (no row was dropped on the way) and there are
    sixteen rows or more.  When one of the three labels is missing, neither
    page has a total: the Data Overview raises KeyError at
    [df.drop([5, 8, 15])], and the Executive Summary raises KeyError there
    or TypeError one line before, on a last label that is no text. *)
Theorem cards_same_on_both_pages (t : Loaded.LTable) :
  t <> [] ->
  (forall c, Loaded.executive_summary_cards t = Ok c -> Loaded.data_overview t = Ok c)
  /\ ((forall k, In k [5; 8; 15] -> In k (map fst t)) ->
        Loaded.data_overview t = Ok (Some (Spec.cards_by_label (Loaded.table t))))
  /\ (map fst t = seq 0 (List.length t) -> 16 <= List.length t ->
        Loaded.data_overview t = Ok (Some (Spec.cards (Loaded.table t))))
  /\ ((exists k, In k [5; 8; 15] /\ ~ In k (map fst t)) ->
        Loaded.data_overview t = Raise KeyError
        /\ (Loaded.executive_summary_cards t = Raise KeyError
            \/ Loaded.executive_summary_cards t = Raise TypeError)).
Proof.
  intros Hne.
  assert (Hlabels : (forall k, In k [5; 8; 15] -> In k (map fst t)) ->
            Loaded.data_overview t = Ok (Some (Spec.cards_by_label (Loaded.table t)))).
  { intros H. rewrite (loaded_overview_cards Hne), cards_present; [reflexivity |].
    rewrite table_index. exact H. }
  split; [| split; [exact Hlabels | split]].
  - intros c H. rewrite (loaded_overview_cards Hne).
    unfold Loaded.executive_summary_cards in H.
    rewrite (proj2 (table_nonempty Hne)) in H. cbn [negb] in H.
    destruct (Loaded.df_for_summary t) as [s | e]; [| discriminate].
    cbn [bind] in H.
    destruct (App.cards (Loaded.table t)) as [c0 | e]; [| discriminate].
    cbn [bind] in H.
    repeat match type of H with
           | bind ?m _ = _ => destruct m; [cbn [bind] in H | discriminate]
           end.
    exact H.
  - intros Hidx Hlen. rewrite Hlabels.
    + unfold Spec.cards, Spec.cards_by_label.
      rewrite without_positions_labels; [reflexivity |].
      rewrite table_index, table_length. exact Hidx.
    + intros k Hk. rewrite Hidx. apply in_seq. simpl in Hk. lia.
  - intros H.
    assert (Hcards : App.cards (Loaded.table t) = Raise KeyError).
    { apply cards_absent. rewrite table_index. exact H. }
    split; [rewrite (loaded_overview_cards Hne), Hcards; reflexivity |].
    unfold Loaded.executive_summary_cards, Loaded.df_for_summary.
    rewrite (proj2 (table_nonempty Hne)). cbn [negb].
    destruct (loaded_last Hne) as [last ->]. cbn [bind].
    destruct (Loaded.label last) as [x | l]; cbn [Loaded.in_op bind].
    + right. reflexivity.
    + left. rewrite Hcards. reflexivity.
Qed.

(** Sixteen rows labelled 0 to 15: the Executive Summary gets to its cards,
    and both pages show the sums without the rows at the positions 5, 8 and
    15. *)
Lemma cards_same_on_both_pages_witness :
  Loaded.executive_summary_cards (Loaded.of_table Sample.sixteen)
  = Ok (Some (Spec.cards Sample.sixteen))
  /\ Loaded.data_overview (Loaded.of_table Sample.sixteen)
     = Ok (Some (Spec.cards Sample.sixteen)).
Proof.
  assert (H : Loaded.executive_summary_cards (Loaded.of_table Sample.sixteen)
              = Ok (Some (Spec.cards Sample.sixteen)))
    by (vm_compute; num_eq).
  split; [exact H |].
  apply (proj1 (@cards_same_on_both_pages (Loaded.of_table Sample.sixteen)
                  ltac:(discriminate))).
  exact H.
Defined.

(** Labels are not positions once a row was dropped on the way: with the
    index 1, ..., 16 the rows left out are the fifth, the eighth and the
    fifteenth, not those at the positions 5, 8 and 15. *)
Example cards_by_label_not_by_position :
  App.data_overview Sample.shifted = Ok (Some (Spec.cards_by_label Sample.shifted))
  /\ fst (fst (Spec.cards_by_label Sample.shifted)) = int 95
  /\ fst (fst (Spec.cards Sample.shifted)) = int 92.
Proof.
  split; [| split].
  - apply data_overview_by_label.
    intros k [<- | [<- | [<- | []]]]; vm_compute; tauto.
  - vm_compute. num_eq.
  - vm_compute. num_eq.
Qed.

(** The Executive Summary can fail where the Data Overview shows its cards:
    at line 600 when no row has an operation in either year (every
    percentage is 0/0), and at line 576 when the label cell of the last row
    is empty.  On the empty frame the Data Overview says "No data
    available" and the Executive Summary raises NameError at line 716. *)
Example summary_fails_where_overview_shows :
  (Loaded.data_overview (Loaded.of_table Sample.sixteen_zeros)
   = Ok (Some (int 0, int 0, int 0))
   /\ Loaded.executive_summary_cards (Loaded.of_table Sample.sixteen_zeros)
      = Raise ValueError)
  /\ (Loaded.data_overview Sample.sixteen_blank_last
      = Ok (Some (Spec.cards (Loaded.table Sample.sixteen_blank_last)))
      /\ Loaded.executive_summary_cards Sample.sixteen_blank_last = Raise TypeError)
  /\ (Loaded.data_overview [] = Ok None
      /\ Loaded.executive_summary_cards [] = Raise NameError).
Proof.
  split; [| split]; split; try reflexivity; vm_compute; num_eq.
Qed.

(** C10 as stated fails: on a table of one row neither page computes a sum;
    both raise KeyError at [df.drop([5, 8, 15])]. *)
Lemma cards_of_one_row_raise :
  Loaded.of_table Sample.one_row <> []
  /\ Loaded.data_overview (Loaded.of_table Sample.one_row) = Raise KeyError
  /\ Loaded.executive_summary_cards (Loaded.of_table Sample.one_row) = Raise KeyError.
Proof.
  split; [discriminate |]. split; reflexivity.
Qed.

(** ** Percentage change *)

Lemma neb_zero_fin (q : Qc) : q <> 0%Qc -> neb (Fin q) (int 0) = true.
Proof.
  intros H. unfold neb, eqb, int.
  rewrite Qc_eq_bool_neq; [reflexivity | exact H].
Qed.

(** The guarded form: 0 on a zero baseline. *)
Lemma change_pct_zero_baseline (b : num) : App.change_pct (int 0) b = int 0.
Proof. reflexivity. Qed.

(** The guarded form: the formula on any other finite baseline. *)
Lemma change_pct_formula (q : Qc) (b : num) :
  q <> 0%Qc ->
  App.change_pct (Fin q) b = mul (div (sub b (Fin q)) (Fin q)) (int 100).
Proof.
  intros H. unfold App.change_pct. rewrite (neb_zero_fin H). reflexivity.
Qed.

(** On finite values the formula is the rational [(b - a) / a * 100]. *)
Lemma change_pct_finite (a b : Qc) :
  a <> 0%Qc ->
  App.change_pct (Fin a) (Fin b) = Fin ((b - a) / a * Q2Qc 100)%Qc.
Proof.
  intros H. rewrite (change_pct_formula (Fin b) H).
  unfold sub, opp, add, div, mul, int.
  rewrite (Qc_eq_bool_neq H). reflexivity.
Qed.

(** No change from a baseline that is not zero is 0 percent. *)
Lemma change_pct_same (x : Qc) :
  x <> 0%Qc -> App.change_pct (Fin x) (Fin x) = int 0.
Proof.
  intros H. rewrite (change_pct_finite x H). unfold int. f_equal.
  change (Q2Qc (inject_Z 0)) with 0%Qc. field. exact H.
Qed.

(** C2 at the per-row column.  A row whose 2024 count is 0 gets no finite
    percentage from lines 329, 426, 475-476 and 599 -- an infinity or NaN,
    never 0 -- whatever its 2025 count; a service with 0 operations in 2024
    and 5 in 2025 gets +inf.  The scalar form of the same page answers 0 on
    the same baseline, and the scalar form of dashRne.py +inf. *)
Theorem row_change_pct_zero_baseline (label : string) (c25 : num) :
  is_finite (App.row_change_pct (mkRow label (int 0) c25)) = false
  /\ App.row_change_pct Sample.new_service = PInf
  /\ App.change_pct (int 0) c25 = int 0
  /\ DashRne.change_pct (int 0) (int 5) = PInf.
Proof.
  split; [| split; [| split]]; try reflexivity.
  unfold App.row_change_pct. simpl count_2024. simpl count_2025.
  destruct c25 as [b | | |]; try reflexivity.
  unfold sub, opp, add, int, div.
  change (Qc_eq_bool (Q2Qc (inject_Z 0)) 0) with true. cbv iota.
  destruct (b + - Q2Qc (inject_Z 0) ?= 0)%Qc; reflexivity.
Qed.

(** ** The biggest mover *)

Lemma extremum_In (better : num -> num -> bool) (s : Series) (p : nat * num) :
  extremum better s = Some p -> In p s.
Proof.
  unfold extremum.
  assert (H : forall s best, In (extremum_from better best s) (best :: s)).
  { clear. induction s as [| q s IH]; intros best; simpl; [left; reflexivity |].
    destruct (is_nan (snd q)).
    - destruct (IH best) as [H | H]; [left; exact H | right; right; exact H].
    - destruct (better (snd q) (snd best)).
      + right. exact (IH q).
      + destruct (IH best) as [H | H]; [left; exact H | right; right; exact H]. }
  destruct (filter (fun q => negb (is_nan (snd q))) s) as [| b s'] eqn:E;
    [discriminate |].
  intros [= <-].
  assert (Hin : In (extremum_from better b s') (b :: s')) by apply H.
  rewrite <- E in Hin. apply filter_In in Hin. tauto.
Qed.

Lemma loc_label_In (i : nat) (df : Table) :
  In i (map fst df) -> exists name, loc_label i df = Ok name.
Proof.
  intros H. unfold loc_label.
  destruct (find (fun r => Nat.eqb (fst r) i) df) as [r |] eqn:E.
  - eexists. reflexivity.
  - exfalso. apply in_map_iff in H. destruct H as (r & <- & Hr).
    pose proof (find_none _ _ E r Hr) as Hn. simpl in Hn.
    rewrite Nat.eqb_refl in Hn. discriminate.
Qed.

(** A table with at least one percentage that is not missing has a biggest
    mover in either direction. *)
Lemma biggest_mover_some (df : Table) (d : App.direction) :
  (exists r, In r df /\ is_nan (App.row_change_pct (snd r)) = false) ->
  exists name pct, App.biggest_mover df d = Ok (name, pct).
Proof.
  intros (r & Hr & Hnan).
  set (s := App.change_pct_series df).
  assert (Hne : forall better, exists p, extremum better s = Some p).
  { intros better. unfold extremum.
    destruct (filter (fun q => negb (is_nan (snd q))) s) as [| b s'] eqn:E.
    - exfalso.
      assert (Hin : In (fst r, App.row_change_pct (snd r))
                       (filter (fun q => negb (is_nan (snd q))) s)).
      { apply filter_In. split.
        - unfold s, App.change_pct_series.
          apply (in_map (fun r => (fst r, App.row_change_pct (snd r)))). exact Hr.
        - simpl. rewrite Hnan. reflexivity. }
      rewrite E in Hin. destruct Hin.
    - eexists. reflexivity. }
  assert (Hlab : forall better p, extremum better s = Some p ->
                   exists name, loc_label (fst p) df = Ok name).
  { intros better p Hp. apply loc_label_In.
    apply extremum_In in Hp. unfold s, App.change_pct_series in Hp.
    apply in_map_iff in Hp. destruct Hp as (q & <- & Hq).
    simpl. apply in_map. exact Hq. }
  destruct d; unfold App.biggest_mover, App.biggest_increase, App.biggest_decrease;
    fold s;
    change (App.getitem_change_pct (setitem_change_pct s (mkFrame df None)))
      with (@Ok Series s);
    change (data (setitem_change_pct s (mkFrame df None))) with df;
    unfold bind, idxmax, idxmin, max, min.
  - destruct (Hne (fun x y => ltb y x)) as [p Hp]. rewrite Hp.
    destruct (Hlab _ _ Hp) as [name Hname]. rewrite Hname.
    eexists. eexists. reflexivity.
  - destruct (Hne ltb) as [p Hp]. rewrite Hp.
    destruct (Hlab _ _ Hp) as [name Hname]. rewrite Hname.
    eexists. eexists. reflexivity.
Qed.

(** The scenario of the specification: A rose by 20 percent, B fell by 10. *)
Example biggest_mover_scenario :
  App.biggest_mover Sample.abc App.Increase = Ok ("A"%string, int 20)
  /\ App.biggest_mover Sample.abc App.Decrease = Ok ("B"%string, int (-10)).
Proof. split; vm_compute; num_eq. Qed.

(** Lines 477-480 and 600-603 as they stand, on an empty frame: the
    ValueError of [idxmax].  No run of app.py gets there, see below. *)
Lemma biggest_mover_empty (d : App.direction) :
  App.biggest_mover [] d = Raise ValueError
  /\ forall r : string * num, App.biggest_mover [] d <> Ok r.
Proof.
  assert (H : App.biggest_mover [] d = Raise ValueError).
  { destruct d; reflexivity. }
  split; [exact H |].
  intros r Hr. rewrite H in Hr. discriminate.
Qed.

(** *** The guards in front of the biggest mover *)

Lemma get_at (h : heap) (r : ref) (f : Frame) :
  nth_error h r = Some f -> get r h = (h, Ok f).
Proof. intros H. unfold get. rewrite H. reflexivity. Qed.

Lemma nth_error_fresh (h : heap) (g : Frame) :
  nth_error (h ++ [g]) (List.length h) = Some g.
Proof. rewrite nth_error_app2, Nat.sub_diag by lia. reflexivity. Qed.

Lemma update_fresh (A : Type) (F : A -> A) (l : list A) (x : A) :
  update (List.length l) F (l ++ [x]) = l ++ [F x].
Proof. induction l as [| y l IH]; simpl; [reflexivity | rewrite IH; reflexivity]. Qed.

Lemma get_fresh (h : heap) (g : Frame) :
  get (List.length h) (h ++ [g]) = (h ++ [g], Ok g).
Proof. apply get_at. apply nth_error_fresh. Qed.

Lemma setitem_fresh (h : heap) (g : Frame) (s : Series) :
  setitem (List.length h) s (h ++ [g]) = (h ++ [setitem_change_pct s g], Ok tt).
Proof.
  unfold setitem. rewrite nth_error_fresh, update_fresh. reflexivity.
Qed.







(** ** Loading *)

Lemma index_of_None (name : string) (hd : list string) :
  ~ In name hd -> index_of name hd = None.
Proof.
  induction hd as [| c hd IH]; intros H; simpl; [reflexivity |].
  destruct (String.eqb c name) eqn:E.
  - exfalso. apply H. left. apply String.eqb_eq. exact E.
  - rewrite IH; [reflexivity |]. intros Hin. apply H. right. exact Hin.
Qed.

Lemma index_of_lt (name : string) (hd : list string) (k : nat) :
  index_of name hd = Some k -> k < List.length hd.
Proof.
  revert k. induction hd as [| c hd IH]; intros k; simpl; [discriminate |].
  destruct (String.eqb c name).
  - intros [= <-]. lia.
  - destruct (index_of name hd) as [j |]; [| discriminate].
    intros [= <-]. specialize (IH j eq_refl). lia.
Qed.

Lemma positions_missing (names hd : list string) (name : string) :
  In name names -> ~ In name hd -> App.positions names hd = Raise KeyError.
Proof.
  intros Hin Hno. induction names as [| n names IH]; [destruct Hin |].
  simpl. destruct (index_of n hd) as [k |] eqn:E; [| reflexivity].
  destruct Hin as [-> | Hin].
  - rewrite (index_of_None _ _ Hno) in E. discriminate.
  - rewrite (IH Hin). reflexivity.
Qed.

Lemma index_of_In (name : string) (hd : list string) :
  In name hd -> exists k, index_of name hd = Some k.
Proof.
  induction hd as [| c hd IH]; intros H; [destruct H |].
  simpl. destruct (String.eqb c name) eqn:E; [eexists; reflexivity |].
  destruct H as [-> | H]; [rewrite String.eqb_refl in E; discriminate |].
  destruct (IH H) as [k ->]. eexists. reflexivity.
Qed.

Lemma positions_present (names hd : list string) :
  (forall name, In name names -> In name hd) ->
  exists ks, App.positions names hd = Ok ks.
Proof.
  induction names as [| n names IH]; intros H; [eexists; reflexivity |].
  simpl. destruct (index_of_In n hd (H n (or_introl eq_refl))) as [k ->].
  destruct IH as [ks ->]; [intros m Hm; apply H; right; exact Hm |].
  eexists. reflexivity.
Qed.

Lemma positions_In (names hd : list string) (ks : list nat) (name : string) (k : nat) :
  App.positions names hd = Ok ks -> In name names -> index_of name hd = Some k ->
  In k ks.
Proof.
  revert ks. induction names as [| n names IH]; intros ks H Hin Hk; [destruct Hin |].
  simpl in H. destruct (index_of n hd) as [j |] eqn:E; [| discriminate].
  destruct (App.positions names hd) as [ks' |]; [| discriminate].
  simpl in H. injection H as <-.
  destruct Hin as [-> | Hin].
  - left. congruence.
  - right. apply (IH ks' eq_refl Hin Hk).
Qed.

Lemma update_length (A : Type) (k : nat) (g : A -> A) (l : list A) :
  List.length (update k g l) = List.length l.
Proof.
  revert k. induction l as [| x l IH]; intros k; [destruct k; reflexivity |].
  destruct k; simpl; [reflexivity | rewrite IH; reflexivity].
Qed.

Lemma nth_update_same (A : Type) (k : nat) (g : A -> A) (l : list A) (d : A) :
  k < List.length l -> nth k (update k g l) d = g (nth k l d).
Proof.
  revert k. induction l as [| x l IH]; intros k H; simpl in H; [lia |].
  destruct k; simpl; [reflexivity |]. apply IH. lia.
Qed.

Lemma nth_update_other (A : Type) (k j : nat) (g : A -> A) (l : list A) (d : A) :
  j <> k -> nth j (update k g l) d = nth j l d.
Proof.
  revert k j. induction l as [| x l IH]; intros k j H; [destruct k; reflexivity |].
  destruct k, j; simpl; try reflexivity; try congruence.
  apply IH. congruence.
Qed.

Lemma fit_length (width : nat) (row : list cell) :
  List.length (fit width row) = width.
Proof.
  unfold fit. rewrite length_firstn, length_app, repeat_length. lia.
Qed.

Lemma read_excel_rows (src : source) (df0 : RawFrame) (r : nat * list cell) :
  read_excel src = Ok df0 -> In r (body df0) ->
  List.length (snd r) = List.length (header df0).
Proof.
  destruct src as [hd rows | e]; [| discriminate].
  intros [= <-] Hr. simpl in *. destruct r as [i row].
  apply in_combine_r in Hr. apply in_map_iff in Hr.
  destruct Hr as (row0 & <- & _). apply fit_length.
Qed.

Section LoadFacts.

Variable parse : string -> num.

Lemma is_nan_fillna0 (x : num) : is_nan (App.fillna0 x) = false.
Proof. unfold App.fillna0. destruct x; reflexivity. Qed.

Lemma coerce_idempotent (c : cell) :
  App.coerce parse (App.coerce parse c) = App.coerce parse c.
Proof.
  unfold App.coerce. simpl. f_equal.
  unfold App.fillna0 at 1. rewrite is_nan_fillna0. reflexivity.
Qed.

Lemma coerce_row_length (ks : list nat) (row : list cell) :
  List.length (App.coerce_row parse ks row) = List.length row.
Proof.
  induction ks as [| j ks IH]; simpl; [reflexivity |].
  rewrite update_length. exact IH.
Qed.

Lemma coerce_row_at (ks : list nat) (row : list cell) (k : nat) :
  k < List.length row ->
  cell_at k (App.coerce_row parse ks row)
  = if existsb (Nat.eqb k) ks then App.coerce parse (cell_at k row) else cell_at k row.
Proof.
  intros Hk. unfold cell_at.
  induction ks as [| j ks IH]; simpl; [reflexivity |].
  destruct (Nat.eqb_spec k j) as [<- | Hne]; simpl.
  - rewrite nth_update_same by (rewrite coerce_row_length; exact Hk).
    rewrite IH. destruct (existsb (Nat.eqb k) ks); [| reflexivity].
    apply coerce_idempotent.
  - rewrite nth_update_other by exact Hne. exact IH.
Qed.

Lemma finite_nonneg_fillna0 (x : num) :
  Spec.finite_nonneg (App.fillna0 x) <-> is_nan x = true \/ Spec.finite_nonneg x.
Proof.
  unfold App.fillna0. destruct (is_nan x) eqn:E.
  - split; [intros _; left; reflexivity |].
    intros _. exists 0%Qc. split; [reflexivity | apply Qcle_refl].
  - split; [intros H; right; exact H |].
    intros [H | H]; [discriminate | exact H].
Qed.

(** C4, as the scripts have it.  app.py: when the read fails, or the sheet
    lacks one of the two count columns, [load_data] returns the empty frame
    and reports the error with [st.error]; nothing is raised.  A sheet that
    has both count columns is loaded without a report, whatever else its
    header holds.  dashRne.py: the exception of the read is the outcome of
    [load_data], and a sheet is returned as read whatever its header. *)
Theorem load_data_failure :
  (forall e, App.load_data parse (Unreadable e) = (empty_frame, [App.st_error e]))
  /\ (forall hd rows name,
        In name App.numeric_cols -> ~ In name hd ->
        App.load_data parse (Workbook hd rows) = (empty_frame, [App.st_error KeyError]))
  /\ (forall hd rows,
        (forall name, In name App.numeric_cols -> In name hd) ->
        exists df, App.load_data parse (Workbook hd rows) = (df, []) /\ header df = hd)
  /\ (forall e, DashRne.load_data (Unreadable e) = Raise e)
  /\ (forall hd rows,
        exists df, DashRne.load_data (Workbook hd rows) = Ok df /\ header df = hd).
Proof.
  split; [| split; [| split; [| split]]].
  - reflexivity.
  - intros hd rows name Hin Hno.
    unfold App.load_data, App.load_data_try.
    cbn [read_excel bind dropna_all header].
    rewrite (positions_missing _ _ _ Hin Hno). reflexivity.
  - intros hd rows Hall.
    unfold App.load_data, App.load_data_try.
    cbn [read_excel bind dropna_all header].
    destruct (positions_present App.numeric_cols hd Hall) as [ks ->].
    eexists. split; reflexivity.
  - reflexivity.
  - intros hd rows. eexists. split; reflexivity.
Qed.

(** C8, as app.py has it.  Every count cell of the loaded frame is a number
    and never the missing value: it is the number the cell of the sheet
    holds or spells, and 0 when that cell is empty or spells no number.  So
    it is finite and not negative exactly when the sheet's cell is missing
    or is itself finite and not negative. *)
Theorem load_data_counts (src : source) (name : string) (k : nat) (r : nat * list cell) :
  In name App.numeric_cols ->
  index_of name (header (fst (App.load_data parse src))) = Some k ->
  In r (body (fst (App.load_data parse src))) ->
  exists (df0 : RawFrame) (row0 : list cell),
    read_excel src = Ok df0
    /\ In (fst r, row0) (body df0)
    /\ cell_at k (snd r) = CNum (App.fillna0 (App.to_numeric parse (cell_at k row0)))
    /\ is_nan (App.fillna0 (App.to_numeric parse (cell_at k row0))) = false
    /\ (Spec.finite_nonneg (App.fillna0 (App.to_numeric parse (cell_at k row0)))
        <-> is_nan (App.to_numeric parse (cell_at k row0)) = true
            \/ Spec.finite_nonneg (App.to_numeric parse (cell_at k row0))).
Proof.
  intros Hname. unfold App.load_data, App.load_data_try.
  destruct (read_excel src) as [df0 | e] eqn:Hread; [| simpl; intros _ []].
  cbn [bind]. cbv zeta.
  destruct (App.positions App.numeric_cols (header (dropna_all df0))) as [ks | e] eqn:Hpos;
    [| simpl; intros _ []].
  cbn [bind fst header body dropna_all]. intros Hk Hr.
  apply in_map_iff in Hr. destruct Hr as (r0 & <- & Hr0).
  apply filter_In in Hr0. destruct Hr0 as [Hr0 _].
  exists df0, (snd r0). simpl fst. simpl snd.
  split; [reflexivity |]. split; [destruct r0; exact Hr0 |].
  split; [| split; [apply is_nan_fillna0 | apply finite_nonneg_fillna0]].
  rewrite coerce_row_at.
  - replace (existsb (Nat.eqb k) ks) with true; [reflexivity |].
    symmetry. apply existsb_exists. exists k. split; [| apply Nat.eqb_refl].
    apply (positions_In _ _ _ Hpos Hname Hk).
  - rewrite (read_excel_rows _ _ Hread Hr0). apply (index_of_lt _ _ Hk).
Qed.

End LoadFacts.

(** The sheet without the 2025 column, loaded by app.py: the empty frame and
    an error on the page. *)
Lemma load_data_failure_witness :
  App.load_data Sample.no_text_number Sample.wrong_header
  = (empty_frame, [App.st_error KeyError]).
Proof.
  apply (proj1 (proj2 (load_data_failure Sample.no_text_number))
           _ _ "2025 العدد"%string).
  - right. left. reflexivity.
  - intros [H | [H | []]]; discriminate.
Defined.

(** C4 as stated fails for dashRne.py: the failure of the read is what its
    [load_data] ends with; no empty table is returned. *)
Lemma load_data_raises_in_dashRne :
  DashRne.load_data (Unreadable OSError) = Raise OSError
  /\ DashRne.load_data (Unreadable OSError) <> Ok empty_frame.
Proof. split; [reflexivity | discriminate]. Qed.

(** The 2025 cell of the sample sheet after loading. *)
Lemma load_data_counts_witness :
  exists (df0 : RawFrame) (row0 : list cell),
    read_excel Sample.negative_sheet = Ok df0
    /\ In (0, row0) (body df0)
    /\ cell_at 2 [CStr "A"; CNum (int (-5)); CNum (int 7)]
       = CNum (App.fillna0 (App.to_numeric Sample.no_text_number (cell_at 2 row0)))
    /\ is_nan (App.fillna0 (App.to_numeric Sample.no_text_number (cell_at 2 row0))) = false
    /\ (Spec.finite_nonneg
          (App.fillna0 (App.to_numeric Sample.no_text_number (cell_at 2 row0)))
        <-> is_nan (App.to_numeric Sample.no_text_number (cell_at 2 row0)) = true
            \/ Spec.finite_nonneg (App.to_numeric Sample.no_text_number (cell_at 2 row0))).
Proof.
  apply (@load_data_counts Sample.no_text_number Sample.negative_sheet
           "2025 العدد"%string 2
           (0, [CStr "A"; CNum (int (-5)); CNum (int 7)])).
  - right. left. reflexivity.
  - reflexivity.
  - left. reflexivity.
Defined.

(** C8 as stated fails: a count of -5 in the sheet is a count of -5 in the
    loaded frame. *)
Lemma load_data_keeps_negative :
  fst (App.load_data Sample.no_text_number Sample.negative_sheet)
  = {| header := ["نوع العملية"; "2024 العدد"; "2025 العدد"]%string;
       body := [(0, [CStr "A"; CNum (int (-5)); CNum (int 7)])] |}
  /\ ~ Spec.finite_nonneg (int (-5)).
Proof.
  split; [reflexivity |].
  intros (q & Hq & Hle). injection Hq as <-.
  apply Qcle_alt in Hle. apply Hle. reflexivity.
Qed.

(** ** The views and the table they were given *)

Section Rules.

Variable df : ref.













Lemma hoare_weaken (A : Type) (P : heap -> Prop) (m : M A)
  (Q Q' : A -> heap -> Prop) (E E' : heap -> Prop) :
  hoare P m Q E -> (forall a h, Q a h -> Q' a h) -> (forall h, E h -> E' h) ->
  hoare P m Q' E'.
Proof.
  intros H HQ HE h HP. specialize (H h HP).
  destruct (m h) as [h' [a | e]]; [apply HQ | apply HE]; exact H.
Qed.

End Rules.













(* ===================================================================== *)
(** * Further properties of the two scripts *)
(* ===================================================================== *)

(** ** The subsets of the pages *)

Lemma isin_filter_labels (p : string -> bool) (L : list string) (df : Table) :
  (forall r, In r df -> In (operation_type (snd r)) L) ->
  isin (filter p L) df = filter (fun r => p (operation_type (snd r))) df.
Proof.
  intros H. unfold isin. apply filter_ext_in. intros r Hr.
  destruct (p (operation_type (snd r))) eqn:E.
  - apply existsb_eqb_In. apply filter_In. split; [apply H; exact Hr | exact E].
  - apply not_true_is_false. rewrite existsb_eqb_In, filter_In.
    intros [_ H']. congruence.
Qed.

Lemma labels_In (df : Table) (r : nat * Row) :
  In r df -> In (operation_type (snd r)) (labels df).
Proof.
  intros H. unfold labels.
  apply (in_map (fun r => operation_type (snd r))). exact H.
Qed.

(** The creation and update subsets of both scripts are the rows whose own
    label contains a pattern: going through the list of labels, with
    [unique()] as in app.py or without it as in dashRne.py, selects no other
    row and loses none. *)
Theorem subsets_by_pattern (df : Table) :
  App.df_creations df
  = filter (fun r => App.is_creation_op (operation_type (snd r))) df
  /\ App.df_updates df
     = filter (fun r => App.is_update_op (operation_type (snd r))) df
  /\ DashRne.df_creations df
     = filter (fun r => contains "طلب تأسيس" (operation_type (snd r))) df
  /\ DashRne.df_updates df
     = filter (fun r => contains "تحيين" (operation_type (snd r))) df.
Proof.
  split; [| split; [| split]].
  - apply isin_filter_labels. intros r Hr. apply unique_In, labels_In, Hr.
  - apply isin_filter_labels. intros r Hr. apply unique_In, labels_In, Hr.
  - apply (isin_filter_labels (contains "طلب تأسيس")). apply labels_In.
  - apply (isin_filter_labels (contains "تحيين")). apply labels_In.
Qed.

(** ** A lookup in a subset *)

Lemma filter_filter_absorb (A : Type) (p q : A -> bool) (l : list A) :
  (forall a, p a = true -> q a = true) ->
  filter p (filter q l) = filter p l.
Proof.
  intros H. induction l as [| a l IH]; [reflexivity |].
  simpl. destruct (q a) eqn:Eq; simpl.
  - rewrite IH. reflexivity.
  - destruct (p a) eqn:Ep; [| exact IH].
    rewrite (H a Ep) in Eq. discriminate.
Qed.

Lemma lookup_in_isin (ops : list string) (label : string) (y : Year) (df : Table) :
  In label ops ->
  App.lookup_value (isin ops df) label y = App.lookup_value df label y.
Proof.
  intros H. unfold App.lookup_value, loc_eq, isin.
  rewrite filter_filter_absorb; [reflexivity |].
  intros r Hr. unfold has_label in Hr. apply String.eqb_eq in Hr.
  apply existsb_eqb_In. rewrite Hr. exact H.
Qed.

(** Filtering by a list of labels and then looking one of them up gives what
    the lookup gives on the whole table.  So the count under "Most
    Requested Service" of dashRne.py (line 215) is the 2025 count of the
    first row labelled ['استخراج مضمون'] of the sheet, and the page raises
    IndexError when the sheet has no such row. *)
Theorem lookup_after_filter (df : Table) (ops : list string) (label : string) (y : Year) :
  (In label ops ->
     App.lookup_value (isin ops df) label y = App.lookup_value df label y)
  /\ DashRne.most_requested_count df
     = App.lookup_value df DashRne.most_requested_service Y2025
  /\ (Spec.no_label DashRne.most_requested_service df ->
        DashRne.most_requested_count df = Raise IndexError).
Proof.
  assert (H : DashRne.most_requested_count df
              = App.lookup_value df DashRne.most_requested_service Y2025).
  { unfold DashRne.most_requested_count, DashRne.df_services.
    apply (lookup_in_isin App.service_ops DashRne.most_requested_service Y2025 df).
    right. right. right. left. reflexivity. }
  split; [apply lookup_in_isin |]. split; [exact H |].
  intros Hno. rewrite H. apply lookup_value_none. exact Hno.
Qed.

(** The services sample: the count under "Most Requested Service". *)
Lemma lookup_after_filter_witness :
  App.lookup_value (isin App.service_ops Sample.services)
    DashRne.most_requested_service Y2025
  = App.lookup_value Sample.services DashRne.most_requested_service Y2025
  /\ DashRne.most_requested_count Sample.abc = Raise IndexError.
Proof.
  split.
  - apply (proj1 (lookup_after_filter Sample.services App.service_ops
                    DashRne.most_requested_service Y2025)).
    right. right. right. left. reflexivity.
  - apply (proj2 (proj2 (lookup_after_filter Sample.abc [] "" Y2024))).
    intros r [<- | [<- | [<- | []]]]; discriminate.
Defined.

(** ** Extrema *)

Lemma Qc_ltb_lt (a b : Qc) : Qc_ltb a b = true <-> (a < b)%Qc.
Proof.
  unfold Qc_ltb. rewrite Qclt_alt.
  destruct (a ?= b)%Qc; split; intros H; try reflexivity; try discriminate.
Qed.

Lemma Qc_ltb_leb (a b : Qc) : Qc_ltb a b = negb (Qc_leb b a).
Proof.
  destruct (Qc_leb b a) eqn:E; simpl.
  - apply not_true_is_false. rewrite Qc_ltb_lt. apply Qc_leb_le in E.
    apply Qcle_not_lt. exact E.
  - apply Qc_ltb_lt. apply Qcnot_le_lt. intros H.
    apply Qc_leb_le in H. congruence.
Qed.

(** On numbers that are not missing, [<] is the negation of [>=]. *)
Lemma ltb_leb (x y : num) :
  is_nan x = false -> is_nan y = false -> ltb x y = negb (leb y x).
Proof.
  destruct x as [a | | |], y as [b | | |]; simpl; intros; try reflexivity;
    try discriminate.
  apply Qc_ltb_leb.
Qed.

Lemma leb_trans (x y z : num) :
  leb x y = true -> leb y z = true -> leb x z = true.
Proof.
  destruct x as [a | | |], y as [b | | |], z as [c | | |]; simpl;
    try reflexivity; try discriminate.
  apply Qc_leb_trans.
Qed.

Lemma leb_total (x y : num) :
  is_nan x = false -> is_nan y = false -> leb x y = true \/ leb y x = true.
Proof.
  destruct x as [a | | |], y as [b | | |]; simpl; intros; auto; try discriminate.
  apply Qc_leb_total.
Qed.

Section Extremum.

(** A strict order on the numbers that are not missing: [better x y] reads
    "x is strictly better than y". *)
Variable better : num -> num -> bool.

Hypothesis better_asym : forall x y, better x y = true -> better y x = false.

Hypothesis better_negtrans : forall x y z,
  is_nan x = false -> is_nan y = false -> is_nan z = false ->
  better x y = false -> better y z = false -> better x z = false.

Lemma extremum_from_best (s : Series) (best : nat * num) :
  is_nan (snd best) = false ->
  is_nan (snd (extremum_from better best s)) = false
  /\ better (snd best) (snd (extremum_from better best s)) = false
  /\ forall q, In q s -> is_nan (snd q) = false ->
       better (snd q) (snd (extremum_from better best s)) = false.
Proof.
  revert best. induction s as [| p s IH]; intros best Hb; simpl.
  - split; [exact Hb |]. split; [| intros q []].
    destruct (better (snd best) (snd best)) eqn:E; [| reflexivity].
    rewrite (better_asym E) in E. discriminate.
  - destruct (is_nan (snd p)) eqn:Hp.
    + destruct (IH best Hb) as (H1 & H2 & H3).
      split; [exact H1 |]. split; [exact H2 |].
      intros q [<- | Hq] Hn; [congruence | apply H3; assumption].
    + destruct (better (snd p) (snd best)) eqn:E.
      * destruct (IH p Hp) as (H1 & H2 & H3).
        split; [exact H1 |]. split.
        -- apply better_negtrans with (y := snd p); try assumption.
           apply better_asym. exact E.
        -- intros q [<- | Hq] Hn; [exact H2 | apply H3; assumption].
      * destruct (IH best Hb) as (H1 & H2 & H3).
        split; [exact H1 |]. split; [exact H2 |].
        intros q [<- | Hq] Hn; [| apply H3; assumption].
        apply better_negtrans with (y := snd best); assumption.
Qed.

(** The extremum is a value of the Series that is not missing, and no value
    of the Series is strictly better. *)
Lemma extremum_best (s : Series) (p : nat * num) :
  extremum better s = Some p ->
  In p s /\ is_nan (snd p) = false
  /\ forall q, In q s -> is_nan (snd q) = false -> better (snd q) (snd p) = false.
Proof.
  intros H. split; [apply (extremum_In _ _ H) |].
  unfold extremum in H.
  destruct (filter (fun q => negb (is_nan (snd q))) s) as [| b s'] eqn:E;
    [discriminate |].
  injection H as <-.
  assert (Hb : is_nan (snd b) = false).
  { assert (Hin : In b (filter (fun q => negb (is_nan (snd q))) s))
      by (rewrite E; left; reflexivity).
    apply filter_In in Hin. destruct Hin as [_ Hin].
    apply negb_true_iff in Hin. exact Hin. }
  destruct (extremum_from_best s' b Hb) as (H1 & H2 & H3).
  split; [exact H1 |].
  intros q Hq Hn.
  assert (Hin : In q (b :: s')).
  { rewrite <- E. apply filter_In. split; [exact Hq |]. rewrite Hn. reflexivity. }
  destruct Hin as [<- | Hin]; [exact H2 | apply H3; assumption].
Qed.

(** A Series of missing values only, the empty one among them, has no
    extremum. *)
Lemma extremum_none (s : Series) :
  extremum better s = None <-> forall q, In q s -> is_nan (snd q) = true.
Proof.
  unfold extremum.
  destruct (filter (fun q => negb (is_nan (snd q))) s) as [| b s'] eqn:E.
  - split; [| reflexivity]. intros _ q Hq.
    destruct (is_nan (snd q)) eqn:Hn; [reflexivity |].
    assert (Hin : In q (filter (fun q => negb (is_nan (snd q))) s)).
    { apply filter_In. split; [exact Hq |]. rewrite Hn. reflexivity. }
    rewrite E in Hin. destruct Hin.
  - split; [discriminate |]. intros H.
    assert (Hin : In b (filter (fun q => negb (is_nan (snd q))) s))
      by (rewrite E; left; reflexivity).
    apply filter_In in Hin. destruct Hin as [Hin Hn].
    rewrite (H b Hin) in Hn. discriminate.
Qed.

End Extremum.

Lemma gt_asym (x y : num) : ltb y x = true -> ltb x y = false.
Proof.
  destruct x as [a | | |], y as [b | | |]; simpl; try reflexivity; try discriminate.
  rewrite !Qc_ltb_lt. intros H. apply not_true_is_false. rewrite Qc_ltb_lt.
  intros H'. apply (Qclt_not_le _ _ H). apply Qclt_le_weak. exact H'.
Qed.

Lemma lt_negtrans (x y z : num) :
  is_nan x = false -> is_nan y = false -> is_nan z = false ->
  ltb x y = false -> ltb y z = false -> ltb x z = false.
Proof.
  intros Hx Hy Hz. rewrite !ltb_leb by assumption.
  rewrite !negb_false_iff. intros H1 H2. apply (leb_trans _ _ _ H2 H1).
Qed.

(** A row is found again by its index label when the labels are distinct. *)
Lemma loc_label_unique (df : Table) (r : nat * Row) :
  NoDup (map fst df) -> In r df ->
  loc_label (fst r) df = Ok (operation_type (snd r)).
Proof.
  unfold loc_label. induction df as [| x df IH]; intros Hnd Hr; [destruct Hr |].
  simpl in Hnd. inversion Hnd as [| ? ? Hx Hnd']; subst.
  simpl. destruct (Nat.eqb_spec (fst x) (fst r)) as [E | E].
  - destruct Hr as [-> | Hr]; [reflexivity |].
    exfalso. apply Hx. rewrite E. apply in_map. exact Hr.
  - destruct Hr as [-> | Hr]; [congruence |].
    apply IH; assumption.
Qed.

(** The label and the value that [idxmax]/[max] or [idxmin]/[min] report
    for a column computed row by row belong to one row of the table. *)
Lemma extremum_row (g : Row -> num) (better : num -> num -> bool)
  (df : Table) (p : nat * num) :
  NoDup (map fst df) ->
  extremum better (map (fun r => (fst r, g (snd r))) df) = Some p ->
  exists r, In r df /\ snd p = g (snd r)
            /\ loc_label (fst p) df = Ok (operation_type (snd r)).
Proof.
  intros Hnd H. apply extremum_In in H.
  apply in_map_iff in H. destruct H as (r & <- & Hr).
  exists r. split; [exact Hr |]. split; [reflexivity |].
  apply loc_label_unique; assumption.
Qed.

Lemma max_spec (s : Series) (p : nat * num) :
  extremum (fun x y => ltb y x) s = Some p ->
  In p s /\ is_nan (snd p) = false
  /\ forall q, In q s -> is_nan (snd q) = false -> leb (snd q) (snd p) = true.
Proof.
  intros H.
  assert (Hasym : forall x y, ltb y x = true -> ltb x y = false)
    by (intros x y; apply gt_asym).
  assert (Hneg : forall x y z,
            is_nan x = false -> is_nan y = false -> is_nan z = false ->
            ltb y x = false -> ltb z y = false -> ltb z x = false).
  { intros x y z Hx Hy Hz H1 H2. apply lt_negtrans with (y := y); assumption. }
  destruct (@extremum_best (fun x y => ltb y x) Hasym Hneg s p H) as (H1 & H2 & H3).
  split; [exact H1 |]. split; [exact H2 |].
  intros q Hq Hn. specialize (H3 q Hq Hn). cbv beta in H3.
  rewrite ltb_leb in H3 by assumption.
  apply negb_false_iff in H3. exact H3.
Qed.

Lemma min_spec (s : Series) (p : nat * num) :
  extremum ltb s = Some p ->
  In p s /\ is_nan (snd p) = false
  /\ forall q, In q s -> is_nan (snd q) = false -> leb (snd p) (snd q) = true.
Proof.
  intros H.
  assert (Hasym : forall x y, ltb x y = true -> ltb y x = false)
    by (intros x y; apply gt_asym).
  destruct (@extremum_best ltb Hasym lt_negtrans s p H) as (H1 & H2 & H3).
  split; [exact H1 |]. split; [exact H2 |].
  intros q Hq Hn. specialize (H3 q Hq Hn).
  rewrite ltb_leb in H3 by assumption.
  apply negb_false_iff in H3. exact H3.
Qed.

(** ** The biggest mover and the most requested service *)

Lemma biggest_increase_of_series (df : Table) :
  App.biggest_mover df App.Increase
  = match extremum (fun x y => ltb y x) (App.change_pct_series df) with
    | Some p => bind (loc_label (fst p) df) (fun name => Ok (name, snd p))
    | None => Raise ValueError
    end.
Proof.
  unfold App.biggest_mover, App.biggest_increase.
  change (App.getitem_change_pct
            (setitem_change_pct (App.change_pct_series df) (mkFrame df None)))
    with (@Ok Series (App.change_pct_series df)).
  change (data (setitem_change_pct (App.change_pct_series df) (mkFrame df None)))
    with df.
  unfold bind, idxmax, max.
  destruct (extremum (fun x y => ltb y x) (App.change_pct_series df)); reflexivity.
Qed.

Lemma biggest_decrease_of_series (df : Table) :
  App.biggest_mover df App.Decrease
  = match extremum ltb (App.change_pct_series df) with
    | Some p => bind (loc_label (fst p) df) (fun name => Ok (name, snd p))
    | None => Raise ValueError
    end.
Proof.
  unfold App.biggest_mover, App.biggest_decrease.
  change (App.getitem_change_pct
            (setitem_change_pct (App.change_pct_series df) (mkFrame df None)))
    with (@Ok Series (App.change_pct_series df)).
  change (data (setitem_change_pct (App.change_pct_series df) (mkFrame df None)))
    with df.
  unfold bind, idxmin, min.
  destruct (extremum ltb (App.change_pct_series df)); reflexivity.
Qed.

(** On a table with distinct index labels, the name and the percentage that
    lines 477-480 and 600-603 report belong to one and the same row, the
    percentage is a number, and no row has a larger one (a smaller one, for
    the biggest decrease) among the percentages that are not missing. *)
Theorem biggest_mover_row (df : Table) (d : App.direction) (name : string) (pct : num) :
  NoDup (map fst df) ->
  App.biggest_mover df d = Ok (name, pct) ->
  exists r,
    In r df
    /\ operation_type (snd r) = name
    /\ App.row_change_pct (snd r) = pct
    /\ is_nan pct = false
    /\ forall q, In q df -> is_nan (App.row_change_pct (snd q)) = false ->
         match d with
         | App.Increase => leb (App.row_change_pct (snd q)) pct
         | App.Decrease => leb pct (App.row_change_pct (snd q))
         end = true.
Proof.
  intros Hnd H. destruct d.
  - rewrite biggest_increase_of_series in H.
    destruct (extremum (fun x y => ltb y x) (App.change_pct_series df))
      as [p |] eqn:E; [| discriminate].
    destruct (extremum_row App.row_change_pct _ df Hnd E) as (r & Hr & Hp & Hl).
    rewrite Hl in H. simpl in H. injection H as <- <-.
    destruct (max_spec _ E) as (_ & Hn & Hmax).
    exists r. split; [exact Hr |]. split; [reflexivity |].
    split; [symmetry; exact Hp |]. split; [exact Hn |].
    intros q Hq Hqn.
    apply (Hmax (fst q, App.row_change_pct (snd q))); [| exact Hqn].
    unfold App.change_pct_series.
    apply (in_map (fun r => (fst r, App.row_change_pct (snd r)))). exact Hq.
  - rewrite biggest_decrease_of_series in H.
    destruct (extremum ltb (App.change_pct_series df)) as [p |] eqn:E;
      [| discriminate].
    destruct (extremum_row App.row_change_pct _ df Hnd E) as (r & Hr & Hp & Hl).
    rewrite Hl in H. simpl in H. injection H as <- <-.
    destruct (min_spec _ E) as (_ & Hn & Hmin).
    exists r. split; [exact Hr |]. split; [reflexivity |].
    split; [symmetry; exact Hp |]. split; [exact Hn |].
    intros q Hq Hqn.
    apply (Hmin (fst q, App.row_change_pct (snd q))); [| exact Hqn].
    unfold App.change_pct_series.
    apply (in_map (fun r => (fst r, App.row_change_pct (snd r)))). exact Hq.
Qed.

Ltac nodup_nat :=
  simpl; repeat (constructor; [simpl; lia |]); constructor.

(** The scenario table: A rose most, by 20 percent. *)
Lemma biggest_mover_row_witness :
  exists r,
    In r Sample.abc
    /\ operation_type (snd r) = "A"%string
    /\ App.row_change_pct (snd r) = int 20
    /\ is_nan (int 20) = false
    /\ forall q, In q Sample.abc -> is_nan (App.row_change_pct (snd q)) = false ->
         leb (App.row_change_pct (snd q)) (int 20) = true.
Proof.
  apply (@biggest_mover_row Sample.abc App.Increase "A"%string (int 20)).
  - nodup_nat.
  - vm_compute. num_eq.
Defined.

(** On a table with distinct index labels, the service named "most
    requested" (lines 471-472) is a row of the table, the count shown with
    it is its 2025 count, and no row has a larger 2025 count. *)
Theorem most_requested_row (d : Table) (name : string) (n : num) :
  NoDup (map fst d) ->
  App.most_requested d = Ok (name, n) ->
  exists r,
    In r d
    /\ operation_type (snd r) = name
    /\ count_2025 (snd r) = n
    /\ is_nan n = false
    /\ forall q, In q d -> is_nan (count_2025 (snd q)) = false ->
         leb (count_2025 (snd q)) n = true.
Proof.
  intros Hnd H. unfold App.most_requested, idxmax, max, bind in H.
  change (column Y2025 d) with (map (fun r => (fst r, count_2025 (snd r))) d) in H.
  destruct (extremum (fun x y => ltb y x)
              (map (fun r => (fst r, count_2025 (snd r))) d)) as [p |] eqn:E;
    [| discriminate].
  destruct (extremum_row count_2025 _ d Hnd E) as (r & Hr & Hp & Hl).
  rewrite Hl in H. injection H as <- <-.
  destruct (max_spec _ E) as (_ & Hn & Hmax).
  exists r. split; [exact Hr |]. split; [reflexivity |].
  split; [symmetry; exact Hp |]. split; [exact Hn |].
  intros q Hq Hqn.
  apply (Hmax (fst q, count_2025 (snd q))); [| exact Hqn].
  apply (in_map (fun r => (fst r, count_2025 (snd r)))). exact Hq.
Qed.

(** The services sample: the most requested service is the first one. *)
Lemma most_requested_row_witness :
  exists r,
    In r Sample.services
    /\ operation_type (snd r) = "ترسيم رهون"%string
    /\ count_2025 (snd r) = int 12
    /\ is_nan (int 12) = false
    /\ forall q, In q Sample.services -> is_nan (count_2025 (snd q)) = false ->
         leb (count_2025 (snd q)) (int 12) = true.
Proof.
  apply (@most_requested_row Sample.services "ترسيم رهون"%string (int 12)).
  - nodup_nat.
  - reflexivity.
Defined.

(** ** When the biggest mover fails *)

(** The per-row percentage of a row with finite counts: a finite number
    when the 2024 count is not 0, missing when both counts are 0, and an
    infinity otherwise. *)
Lemma row_change_pct_finite_counts (label : string) (a b : Qc) :
  (a <> 0%Qc ->
     App.row_change_pct (mkRow label (Fin a) (Fin b))
     = Fin ((b - a) / a * Q2Qc 100)%Qc)
  /\ (a = 0%Qc -> b = 0%Qc ->
        App.row_change_pct (mkRow label (Fin a) (Fin b)) = NaN)
  /\ (a = 0%Qc -> b <> 0%Qc ->
        is_nan (App.row_change_pct (mkRow label (Fin a) (Fin b))) = false
        /\ is_finite (App.row_change_pct (mkRow label (Fin a) (Fin b))) = false).
Proof.
  unfold App.row_change_pct. simpl count_2024. simpl count_2025.
  unfold sub, opp, add, div.
  split; [| split].
  - intros Ha. rewrite (Qc_eq_bool_neq Ha). reflexivity.
  - intros -> ->. reflexivity.
  - intros -> Hb. rewrite Qc_eq_bool_refl.
    destruct (b + - 0 ?= 0)%Qc eqn:E.
    + exfalso. apply Hb. apply Qceq_alt in E.
      rewrite <- E. ring.
    + split; reflexivity.
    + split; reflexivity.
Qed.

Lemma row_change_pct_missing (r : nat * Row) :
  is_finite (count_2024 (snd r)) = true -> is_finite (count_2025 (snd r)) = true ->
  (is_nan (App.row_change_pct (snd r)) = true <-> Spec.zero_row r).
Proof.
  destruct r as [i [label c24 c25]]. unfold Spec.zero_row. simpl.
  destruct c24 as [a | | |], c25 as [b | | |]; try discriminate. intros _ _.
  destruct (row_change_pct_finite_counts label a b) as (H1 & H2 & H3).
  destruct (Qc_eq_dec a 0%Qc) as [Ha | Ha].
  - destruct (Qc_eq_dec b 0%Qc) as [Hb | Hb].
    + rewrite (H2 Ha Hb). subst. split; [intros _; split; reflexivity | reflexivity].
    + destruct (H3 Ha Hb) as [Hn _]. rewrite Hn. split; [discriminate |].
      intros [_ Hz]. exfalso. apply Hb. injection Hz as Hz. exact Hz.
  - rewrite (H1 Ha). split; [discriminate |].
    intros [Hz _]. exfalso. apply Ha. injection Hz as Hz. exact Hz.
Qed.

(** On a table with finite counts, the column of percentages has no
    extremum exactly when every row has 0 operations in both years. *)
Lemma change_pct_extremum_none (df : Table) (better : num -> num -> bool) :
  Spec.all_finite df ->
  (extremum better (App.change_pct_series df) = None
   <-> forall r, In r df -> Spec.zero_row r).
Proof.
  intros Hfin. rewrite extremum_none. split.
  - intros H r Hr. destruct (Hfin r Hr) as [H24 H25].
    apply (row_change_pct_missing r H24 H25).
    apply (H (fst r, App.row_change_pct (snd r))).
    unfold App.change_pct_series.
    apply (in_map (fun r => (fst r, App.row_change_pct (snd r)))). exact Hr.
  - intros H q Hq. unfold App.change_pct_series in Hq.
    apply in_map_iff in Hq. destruct Hq as (r & <- & Hr).
    destruct (Hfin r Hr) as [H24 H25].
    apply (row_change_pct_missing r H24 H25). apply H. exact Hr.
Qed.

(** The biggest mover is a value or ValueError, and ValueError exactly when
    the column of percentages has no extremum. *)
Lemma biggest_mover_outcome (df : Table) (d : App.direction) :
  (exists v, App.biggest_mover df d = Ok v
             /\ exists p, extremum (match d with
                                    | App.Increase => fun x y => ltb y x
                                    | App.Decrease => ltb
                                    end) (App.change_pct_series df) = Some p)
  \/ (App.biggest_mover df d = Raise ValueError
      /\ extremum (match d with
                   | App.Increase => fun x y => ltb y x
                   | App.Decrease => ltb
                   end) (App.change_pct_series df) = None).
Proof.
  destruct d;
    [rewrite biggest_increase_of_series | rewrite biggest_decrease_of_series];
    match goal with
    | |- context [extremum ?b ?s] => destruct (extremum b s) as [p |] eqn:E
    end;
    try (right; split; reflexivity);
    left;
    pose proof (extremum_In _ _ E) as Hin;
    unfold App.change_pct_series in Hin;
    apply in_map_iff in Hin; destruct Hin as (r & <- & Hr);
    destruct (loc_label_In (fst r) df (in_map fst df r Hr)) as [nm Hnm];
    simpl fst; rewrite Hnm; eexists; (split; [reflexivity | eexists; reflexivity]).
Qed.

(** On a table with finite counts the biggest mover, in either direction,
    raises ValueError exactly when every row has 0 operations in both years
    (the empty table among them): then every percentage is 0/0. *)
Theorem biggest_mover_fails (df : Table) (d : App.direction) :
  Spec.all_finite df ->
  (App.biggest_mover df d = Raise ValueError
   <-> forall r, In r df -> Spec.zero_row r).
Proof.
  intros Hfin.
  destruct (biggest_mover_outcome df d) as [(v & Hv & p & Hp) | [Hr Hn]].
  - rewrite Hv. split; [discriminate |].
    intros H. rewrite (proj2 (@change_pct_extremum_none df _ Hfin) H) in Hp.
    discriminate.
  - rewrite Hr. split; [| reflexivity].
    intros _. apply (proj1 (@change_pct_extremum_none df _ Hfin) Hn).
Qed.

(** A single service with no operation in either year: no biggest mover. *)
Lemma biggest_mover_fails_witness :
  App.biggest_mover [(7, Sample.row "A" 0 0)] App.Increase = Raise ValueError
  <-> forall r, In r [(7, Sample.row "A" 0 0)] -> Spec.zero_row r.
Proof.
  apply (@biggest_mover_fails [(7, Sample.row "A" 0 0)] App.Increase).
  intros r [<- | []]. split; reflexivity.
Defined.

(** ** What [load_data] of app.py keeps *)

Lemma In_combine_seq (A : Type) (l : list A) (a i : nat) (x : A) :
  In (i, x) (combine (seq a (List.length l)) l)
  <-> a <= i /\ nth_error l (i - a) = Some x.
Proof.
  revert a. induction l as [| y l IH]; intros a; simpl.
  - split; [intros [] |]. intros [_ H]. destruct (i - a); discriminate.
  - rewrite IH. split.
    + intros [H | [Hle H]].
      * injection H as <- <-. split; [lia |]. rewrite Nat.sub_diag. reflexivity.
      * split; [lia |]. replace (i - a) with (S (i - S a)) by lia. exact H.
    + intros [Hle H]. destruct (Nat.eq_dec a i) as [<- | Hne].
      * left. rewrite Nat.sub_diag in H. simpl in H. congruence.
      * right. split; [lia |].
        replace (i - a) with (S (i - S a)) in H by lia. exact H.
Qed.

Lemma filter_combine_seq_sorted (A : Type) (f : nat * A -> bool) (l : list A) (a : nat) :
  StronglySorted lt (map fst (filter f (combine (seq a (List.length l)) l)))
  /\ Forall (le a) (map fst (filter f (combine (seq a (List.length l)) l))).
Proof.
  revert a. induction l as [| y l IH]; intros a; simpl.
  - split; constructor.
  - destruct (IH (S a)) as [Hs Hf].
    assert (Hf' : Forall (le a)
                    (map fst (filter f (combine (seq (S a) (List.length l)) l)))).
    { eapply Forall_impl; [| exact Hf]. intros; lia. }
    destruct (f (a, y)); simpl.
    + split.
      * constructor; [exact Hs |]. eapply Forall_impl; [| exact Hf]. intros; lia.
      * constructor; [lia | exact Hf'].
    + split; assumption.
Qed.

Lemma index_of_nth (name : string) (hd : list string) (k : nat) :
  index_of name hd = Some k -> nth_error hd k = Some name.
Proof.
  revert k. induction hd as [| c hd IH]; intros k; simpl; [discriminate |].
  destruct (String.eqb c name) eqn:E.
  - intros [= <-]. apply String.eqb_eq in E. simpl. congruence.
  - destruct (index_of name hd) as [j |]; [| discriminate].
    intros [= <-]. simpl. apply IH. reflexivity.
Qed.

Lemma positions_spec (names hd : list string) (ks : list nat) (k : nat) :
  App.positions names hd = Ok ks ->
  (In k ks <-> exists name, In name names /\ index_of name hd = Some k).
Proof.
  revert ks. induction names as [| n names IH]; intros ks H; simpl in H.
  - injection H as <-. split; [intros [] | intros (? & [] & _)].
  - destruct (index_of n hd) as [j |] eqn:E; [| discriminate].
    destruct (App.positions names hd) as [ks' |]; [| discriminate].
    simpl in H. injection H as <-. specialize (IH ks' eq_refl).
    split.
    + intros [<- | Hk].
      * exists n. split; [left; reflexivity | exact E].
      * apply IH in Hk. destruct Hk as (name & Hin & Hname).
        exists name. split; [right; exact Hin | exact Hname].
    + intros (name & [-> | Hin] & Hname).
      * left. congruence.
      * right. apply IH. exists name. split; assumption.
Qed.

Section LoadKeeps.

Variable parse : string -> num.

(** The frame [load_data] returns for a sheet that has both count columns. *)
Lemma load_data_body (hd : list string) (rows : list (list cell)) (ks : list nat) :
  App.positions App.numeric_cols hd = Ok ks ->
  fst (App.load_data parse (Workbook hd rows))
  = {| header := hd;
       body := map (fun r => (fst r, App.coerce_row parse ks (snd r)))
                 (filter (fun r => negb (forallb is_na (snd r)))
                    (combine (seq 0 (List.length rows))
                       (map (fit (List.length hd)) rows))) |}.
Proof.
  intros H. unfold App.load_data, App.load_data_try.
  cbn [read_excel bind dropna_all header body]. rewrite H. reflexivity.
Qed.

(** A sheet with both count columns, loaded by app.py: the header is the
    sheet's; the rows are, in the order of the sheet and each under its
    position in the sheet as index label (so the labels increase and no two
    are equal), exactly the rows of the sheet that have a cell which is not
    missing, with their count cells coerced. *)
Theorem load_data_rows (hd : list string) (rows : list (list cell)) (ks : list nat) :
  App.positions App.numeric_cols hd = Ok ks ->
  header (fst (App.load_data parse (Workbook hd rows))) = hd
  /\ StronglySorted lt (map fst (body (fst (App.load_data parse (Workbook hd rows)))))
  /\ forall i row,
       In (i, row) (body (fst (App.load_data parse (Workbook hd rows))))
       <-> exists row0,
             nth_error rows i = Some row0
             /\ forallb is_na (fit (List.length hd) row0) = false
             /\ row = App.coerce_row parse ks (fit (List.length hd) row0).
Proof.
  intros H. rewrite (@load_data_body hd rows ks H). cbn [header body].
  split; [reflexivity |]. split.
  - rewrite map_map. cbn [fst].
    pose proof (filter_combine_seq_sorted
                  (fun r : nat * list cell => negb (forallb is_na (snd r)))
                  (map (fit (List.length hd)) rows) 0) as [Hs _].
    rewrite length_map in Hs. exact Hs.
  - intros i row. rewrite in_map_iff. split.
    + intros ([j row1] & Heq & Hin). cbn [fst snd] in Heq.
      injection Heq as -> <-.
      apply filter_In in Hin. destruct Hin as [Hin Hna]. cbn [snd] in Hna.
      rewrite <- (length_map (fit (List.length hd)) rows) in Hin.
      apply In_combine_seq in Hin. destruct Hin as [_ Hin].
      rewrite Nat.sub_0_r, nth_error_map in Hin.
      destruct (nth_error rows i) as [row0 |]; [| discriminate].
      injection Hin as <-. exists row0. split; [reflexivity |].
      split; [apply negb_true_iff; exact Hna | reflexivity].
    + intros (row0 & Hnth & Hna & ->).
      exists (i, fit (List.length hd) row0). split; [reflexivity |].
      apply filter_In. split; [| cbn [snd]; rewrite Hna; reflexivity].
      rewrite <- (length_map (fit (List.length hd)) rows).
      apply In_combine_seq. split; [lia |].
      rewrite Nat.sub_0_r, nth_error_map, Hnth. reflexivity.
Qed.

(** In every row that [load_data] of app.py returns, a cell of a count
    column is the coerced cell of the sheet, and a cell of any other column
    is the cell of the sheet as it was read. *)
Theorem load_data_cells (hd : list string) (rows : list (list cell)) (ks : list nat)
  (i : nat) (row row0 : list cell) (name : string) (k : nat) :
  App.positions App.numeric_cols hd = Ok ks ->
  In (i, row) (body (fst (App.load_data parse (Workbook hd rows)))) ->
  nth_error rows i = Some row0 ->
  index_of name hd = Some k ->
  cell_at k row
  = if existsb (String.eqb name) App.numeric_cols
    then App.coerce parse (cell_at k (fit (List.length hd) row0))
    else cell_at k (fit (List.length hd) row0).
Proof.
  intros Hpos Hin Hnth Hk.
  rewrite (@load_data_body hd rows ks Hpos) in Hin. cbn [body] in Hin.
  apply in_map_iff in Hin. destruct Hin as ([j row1] & Heq & Hin).
  cbn [fst snd] in Heq. injection Heq as -> <-.
  apply filter_In in Hin. destruct Hin as [Hin _].
  rewrite <- (length_map (fit (List.length hd)) rows) in Hin.
  apply In_combine_seq in Hin. destruct Hin as [_ Hin].
  rewrite Nat.sub_0_r, nth_error_map, Hnth in Hin. injection Hin as <-.
  rewrite coerce_row_at
    by (rewrite fit_length; apply (index_of_lt _ _ Hk)).
  destruct (existsb (String.eqb name) App.numeric_cols) eqn:E.
  - replace (existsb (Nat.eqb k) ks) with true; [reflexivity |].
    symmetry. apply existsb_exists. exists k. split; [| apply Nat.eqb_refl].
    apply (positions_spec _ _ k Hpos). exists name. split; [| exact Hk].
    apply existsb_eqb_In. exact E.
  - replace (existsb (Nat.eqb k) ks) with false; [reflexivity |].
    symmetry. apply not_true_is_false. intros Hex.
    apply existsb_exists in Hex. destruct Hex as (k' & Hk' & Heq).
    apply Nat.eqb_eq in Heq. subst k'.
    apply (positions_spec _ _ k Hpos) in Hk'.
    destruct Hk' as (name' & Hin' & Hname').
    apply index_of_nth in Hk. apply index_of_nth in Hname'.
    assert (name' = name) by congruence. subst name'.
    apply existsb_eqb_In in Hin'. congruence.
Qed.

End LoadKeeps.

(** The sheet with an empty middle row: two rows are left, labelled 0 and
    2; the text in a count cell and the empty count cell have become 0. *)
Lemma load_data_rows_witness :
  (header (fst (App.load_data Sample.no_text_number
                  (Workbook Sample.gap_header Sample.gap_rows)))
   = Sample.gap_header
   /\ StronglySorted lt
        (map fst (body (fst (App.load_data Sample.no_text_number
                               (Workbook Sample.gap_header Sample.gap_rows)))))
   /\ forall i row,
        In (i, row) (body (fst (App.load_data Sample.no_text_number
                                  (Workbook Sample.gap_header Sample.gap_rows))))
        <-> exists row0,
              nth_error Sample.gap_rows i = Some row0
              /\ forallb is_na (fit (List.length Sample.gap_header) row0) = false
              /\ row = App.coerce_row Sample.no_text_number [1; 2]
                         (fit (List.length Sample.gap_header) row0))
  /\ body (fst (App.load_data Sample.no_text_number
                  (Workbook Sample.gap_header Sample.gap_rows)))
     = [(0, [CStr "A"; CNum (int 0); CNum (int 7)]);
        (2, [CStr "B"; CNum (int 3); CNum (int 0)])].
Proof.
  split.
  - apply (@load_data_rows Sample.no_text_number Sample.gap_header Sample.gap_rows
             [1; 2]).
    reflexivity.
  - reflexivity.
Defined.

(** The label cell of the first row of that sheet is as it was read. *)
Lemma load_data_cells_witness :
  cell_at 0 [CStr "A"; CNum (int 0); CNum (int 7)]
  = if existsb (String.eqb "نوع العملية") App.numeric_cols
    then App.coerce Sample.no_text_number
           (cell_at 0 (fit (List.length Sample.gap_header)
                         [CStr "A"; CStr "x"; CNum (int 7)]))
    else cell_at 0 (fit (List.length Sample.gap_header)
                      [CStr "A"; CStr "x"; CNum (int 7)]).
Proof.
  apply (@load_data_cells Sample.no_text_number Sample.gap_header Sample.gap_rows
           [1; 2] 0 [CStr "A"; CNum (int 0); CNum (int 7)]
           [CStr "A"; CStr "x"; CNum (int 7)] "نوع العملية"%string 0).
  - reflexivity.
  - left. reflexivity.
  - reflexivity.
  - reflexivity.
Defined.

(** ** The Executive Summary without the total row *)

Lemma iloc_last_app (init : Table) (x : nat * Row) :
  iloc_last (init ++ [x]) = Ok (snd x).
Proof. unfold iloc_last. rewrite rev_unit. reflexivity. Qed.

Lemma df_for_summary_same (df : Table) :
  DashRne.df_for_summary df = App.df_for_summary df.
Proof. reflexivity. Qed.

(** When the last label of a table with distinct index labels contains the
    total marker, [df_for_summary] of both scripts is the table without its
    last row, and [top_ops] is at most five rows of it, none of them the
    last row.  When the last label does not contain the marker,
    [df_for_summary] is the whole table. *)
Theorem top_ops_without_total (init : Table) (i : nat) (r : Row) :
  NoDup (map fst (init ++ [(i, r)])) ->
  (contains App.marker (operation_type r) = true ->
     App.df_for_summary (init ++ [(i, r)]) = Ok init
     /\ DashRne.df_for_summary (init ++ [(i, r)]) = Ok init
     /\ List.length (App.top_ops init) = Nat.min 5 (List.length init)
     /\ forall x, In x (App.top_ops init) -> In x init /\ fst x <> i)
  /\ (contains App.marker (operation_type r) = false ->
        App.df_for_summary (init ++ [(i, r)]) = Ok (init ++ [(i, r)])
        /\ DashRne.df_for_summary (init ++ [(i, r)]) = Ok (init ++ [(i, r)])).
Proof.
  intros Hnd. split.
  - intros Hm.
    assert (H : App.df_for_summary (init ++ [(i, r)]) = Ok init).
    { unfold App.df_for_summary. rewrite iloc_last_app. cbn [bind snd].
      rewrite Hm. unfold iloc_init. rewrite removelast_last. reflexivity. }
    split; [exact H |]. split; [rewrite df_for_summary_same; exact H |].
    split; [apply nlargest_length |].
    intros x Hx. apply nlargest_In in Hx. split; [exact Hx |].
    intros Hi. rewrite map_app in Hnd. simpl in Hnd.
    apply NoDup_remove_2 in Hnd. apply Hnd. rewrite app_nil_r.
    rewrite <- Hi. apply in_map. exact Hx.
  - intros Hm.
    assert (H : App.df_for_summary (init ++ [(i, r)]) = Ok (init ++ [(i, r)])).
    { unfold App.df_for_summary. rewrite iloc_last_app. cbn [bind snd].
      rewrite Hm. reflexivity. }
    split; [exact H | rewrite df_for_summary_same; exact H].
Qed.

(** The scenario table with a grand total as its fourth row. *)
Lemma top_ops_without_total_witness :
  App.df_for_summary Sample.with_grand_total = Ok Sample.abc
  /\ DashRne.df_for_summary Sample.with_grand_total = Ok Sample.abc
  /\ List.length (App.top_ops Sample.abc) = Nat.min 5 (List.length Sample.abc)
  /\ forall x, In x (App.top_ops Sample.abc) -> In x Sample.abc /\ fst x <> 3.
Proof.
  apply (proj1 (@top_ops_without_total Sample.abc 3 (Sample.row "المجموع" 35 35)
                  ltac:(nodup_nat))).
  reflexivity.
Defined.

(** ** Sums over parts of a table *)

Lemma add_comm (x y : num) : add x y = add y x.
Proof.
  destruct x as [a | | |], y as [b | | |]; simpl; try reflexivity.
  f_equal. ring.
Qed.

Lemma add_assoc (x y z : num) : add x (add y z) = add (add x y) z.
Proof.
  destruct x as [a | | |], y as [b | | |], z as [c | | |]; simpl; try reflexivity.
  f_equal. ring.
Qed.

Lemma add_0_l (x : num) : add (int 0) x = x.
Proof.
  destruct x as [a | | |]; simpl; try reflexivity.
  f_equal. change (Q2Qc (inject_Z 0)) with 0%Qc. ring.
Qed.

Lemma add_0_r (x : num) : add x (int 0) = x.
Proof. rewrite add_comm. apply add_0_l. Qed.

Lemma fold_sum_acc (l : list num) (acc : num) :
  fold_left (fun a x => if is_nan x then a else add a x) l acc
  = add acc (fold_left (fun a x => if is_nan x then a else add a x) l (int 0)).
Proof.
  revert acc. induction l as [| x l IH]; intros acc; cbn [fold_left].
  - symmetry. apply add_0_r.
  - destruct (is_nan x); [apply IH |].
    rewrite IH. rewrite (IH (add (int 0) x)).
    rewrite add_0_l. symmetry. apply add_assoc.
Qed.

Lemma sum_cons (i : nat) (x : num) (s : Series) :
  sum ((i, x) :: s) = if is_nan x then sum s else add x (sum s).
Proof.
  unfold sum. cbn [values map snd fold_left]. destruct (is_nan x); [reflexivity |].
  rewrite fold_sum_acc, add_0_l. reflexivity.
Qed.

(** The sum of a column is the sum over the rows a test picks plus the sum
    over the rows it leaves. *)
Lemma sum_column_partition (f : nat * Row -> bool) (y : Year) (df : Table) :
  sum (column y df)
  = add (sum (column y (filter f df)))
        (sum (column y (filter (fun r => negb (f r)) df))).
Proof.
  induction df as [| r df IH].
  - change (int 0 = add (int 0) (int 0)). symmetry. apply add_0_l.
  - simpl filter. destruct (f r); cbn [negb]; simpl column; rewrite !sum_cons, IH.
    + destruct (is_nan (count y (snd r))); [reflexivity | apply add_assoc].
    + destruct (is_nan (count y (snd r))); [reflexivity |].
      rewrite !add_assoc.
      rewrite (add_comm (count y (snd r))). reflexivity.
Qed.

(** The totals of app.py and of dashRne.py: whenever app.py has a total
    (the labels 5, 8 and 15 are in the index), the total of dashRne.py for
    the same year is that total plus the sum over the rows labelled 5, 8
    and 15, which dashRne.py does not leave out. *)
Theorem totals_of_both_scripts (df : Table) (y : Year) (t : num) :
  App.sum_without [5; 8; 15] y df = Ok t ->
  sum (column y df)
  = add t (sum (column y (filter (fun r => existsb (Nat.eqb (fst r)) [5; 8; 15]) df)))
  /\ (y = Y2024 -> App.total_2024 df = Ok t
                   /\ DashRne.total_2024 df = sum (column y df))
  /\ (y = Y2025 -> App.total_2025 df = Ok t
                   /\ DashRne.total_2025 df = sum (column y df)).
Proof.
  intros H. split.
  - unfold App.sum_without, drop in H.
    destruct (forallb (fun k => existsb (Nat.eqb k) (map fst df)) [5; 8; 15]);
      [| discriminate].
    cbn [bind] in H. injection H as <-.
    rewrite (sum_column_partition
               (fun r => existsb (Nat.eqb (fst r)) [5; 8; 15]) y df).
    apply add_comm.
  - split; intros ->; (split; [exact H | reflexivity]).
Qed.

(** Sixteen rows with the 2024 counts 0 to 15: 120 in dashRne.py, 92 in
    app.py, and 28 in the three rows between them. *)
Lemma totals_of_both_scripts_witness :
  sum (column Y2024 Sample.sixteen)
  = add (sum (column Y2024 (Spec.without_positions [5; 8; 15] Sample.sixteen)))
        (sum (column Y2024
                (filter (fun r => existsb (Nat.eqb (fst r)) [5; 8; 15])
                   Sample.sixteen))).
Proof.
  apply (proj1 (@totals_of_both_scripts Sample.sixteen Y2024
                  (sum (column Y2024 (Spec.without_positions [5; 8; 15] Sample.sixteen)))
                  eq_refl)).
Defined.

(** ** The total shown by dashRne.py *)

Lemma column_finite_sum (y : Year) (df : Table) :
  Spec.all_finite df -> exists q, sum (column y df) = Fin q.
Proof.
  induction df as [| r df IH]; intros H.
  - eexists. reflexivity.
  - destruct IH as [q Hq]; [intros x Hx; apply H; right; exact Hx |].
    simpl column. rewrite sum_cons, Hq.
    destruct (H r (or_introl eq_refl)) as [H24 H25].
    assert (Hf : is_finite (count y (snd r)) = true) by (destruct y; assumption).
    destruct (count y (snd r)) as [a | | |]; try discriminate.
    eexists. reflexivity.
Qed.

Lemma filter_and (A : Type) (f g : A -> bool) (l : list A) :
  filter g (filter f l) = filter (fun a => f a && g a) l.
Proof.
  induction l as [| a l IH]; [reflexivity |].
  simpl. destruct (f a); simpl; [destruct (g a) |]; rewrite IH; reflexivity.
Qed.

Lemma all_finite_filter (f : nat * Row -> bool) (df : Table) :
  Spec.all_finite df -> Spec.all_finite (filter f df).
Proof. intros H r Hr. apply filter_In in Hr. apply H. tauto. Qed.

(** On a table with finite counts that has exactly one row labelled
    ['مجموع عمليات التأسيس'] and exactly one labelled ['المجموع'], the
    "Total Operations" of the Data Overview of dashRne.py (lines 73-80) is
    the sum over all the other rows. *)
Theorem totalf_is_the_rest (df : Table) (y : Year) (r t : nat * Row) :
  Spec.all_finite df ->
  filter (has_label App.creation_total) df = [r] ->
  filter (has_label DashRne.grand_total) df = [t] ->
  DashRne.totalf y df
  = Ok (sum (column y
               (filter (fun x => negb (has_label App.creation_total x)
                                 && negb (has_label DashRne.grand_total x)) df))).
Proof.
  intros Hfin Hr Ht.
  unfold DashRne.totalf, DashRne.crea, loc_eq. rewrite Hr, Ht.
  cbn [column map values0 values bind fst snd].
  rewrite (sum_column_partition (has_label App.creation_total) y df), Hr.
  rewrite (sum_column_partition (has_label DashRne.grand_total) y
             (filter (fun x => negb (has_label App.creation_total x)) df)).
  rewrite !filter_and.
  assert (Ht' : filter (fun a => negb (has_label App.creation_total a)
                                 && has_label DashRne.grand_total a) df = [t]).
  { rewrite <- Ht. apply filter_ext. intros a. unfold has_label.
    destruct (String.eqb_spec (operation_type (snd a)) DashRne.grand_total) as [E | E];
      [| apply andb_false_r].
    rewrite E. reflexivity. }
  rewrite Ht'.
  destruct (column_finite_sum y
              (all_finite_filter
                 (fun x => negb (has_label App.creation_total x)
                           && negb (has_label DashRne.grand_total x)) Hfin))
    as [o Ho].
  rewrite Ho.
  assert (Hrin : In r df).
  { assert (H : In r (filter (has_label App.creation_total) df))
      by (rewrite Hr; left; reflexivity).
    apply filter_In in H. tauto. }
  assert (Htin : In t df).
  { assert (H : In t (filter (has_label DashRne.grand_total) df))
      by (rewrite Ht; left; reflexivity).
    apply filter_In in H. tauto. }
  destruct (Hfin r Hrin) as [Hr24 Hr25]. destruct (Hfin t Htin) as [Ht24 Ht25].
  assert (Hfr : is_finite (count y (snd r)) = true) by (destruct y; assumption).
  assert (Hft : is_finite (count y (snd t)) = true) by (destruct y; assumption).
  cbn [column map fst snd]. rewrite !sum_cons.
  change (sum []) with (int 0). rewrite !add_0_r.
  destruct (count y (snd r)) as [a | | |]; try discriminate.
  destruct (count y (snd t)) as [b | | |]; try discriminate.
  cbn [is_nan]. unfold sub, opp, add. f_equal. f_equal. ring.
Qed.

(** The table with the two totals: 10 and 12 operations are left. *)
Lemma totalf_is_the_rest_witness :
  DashRne.totalf Y2024 Sample.with_totals
  = Ok (sum (column Y2024
               (filter (fun x => negb (has_label App.creation_total x)
                                 && negb (has_label DashRne.grand_total x))
                  Sample.with_totals))).
Proof.
  apply (@totalf_is_the_rest Sample.with_totals Y2024
           (1, Sample.row App.creation_total 30 40)
           (2, Sample.row DashRne.grand_total 100 120)).
  - intros x [<- | [<- | [<- | []]]]; split; reflexivity.
  - reflexivity.
  - reflexivity.
Defined.

(** ** The arrow and the word on the Executive Summary *)

Lemma Qc_100_pos : (0 < Q2Qc 100)%Qc.
Proof. apply Qclt_alt. reflexivity. Qed.

Lemma pct_nonneg (a b : Qc) :
  (0 < a)%Qc -> ((0 <= (b - a) / a * Q2Qc 100)%Qc <-> (a <= b)%Qc).
Proof.
  intros Ha.
  assert (Hne : a <> 0%Qc).
  { intros ->. apply (Qclt_not_le _ _ Ha). apply Qcle_refl. }
  assert (Hmul : ((b - a) / a * Q2Qc 100 * a = (b - a) * Q2Qc 100)%Qc)
    by (field; exact Hne).
  rewrite (Qcle_minus_iff a b).
  change (b + - a)%Qc with (b - a)%Qc.
  split; intros H.
  - apply (Qcmult_lt_0_le_reg_r _ _ _ Qc_100_pos).
    rewrite <- Hmul. replace (0 * Q2Qc 100)%Qc with (0 * a)%Qc by ring.
    apply Qcmult_le_compat_r; [exact H |].
    apply Qclt_le_weak. exact Ha.
  - apply (Qcmult_lt_0_le_reg_r _ _ _ Ha).
    rewrite Hmul. replace (0 * a)%Qc with (0 * Q2Qc 100)%Qc by ring.
    apply Qcmult_le_compat_r; [exact H |].
    apply Qclt_le_weak. exact Qc_100_pos.
Qed.

(** The first card of the Executive Summary (lines 616-617) and the fourth
    (lines 646-647), for a 2024 total above 0: the arrow points up exactly
    when the 2025 total is not below the 2024 total, and the word is
    "Growth" exactly when it is above.  On equal totals the page shows the
    up arrow and "Decline".  On a 2024 total of 0 the arrow points up
    whatever the 2025 total. *)
Theorem arrow_and_growth (a b : Qc) :
  (0 < a)%Qc ->
  (App.arrow_up (App.change_pct (Fin a) (Fin b)) = true <-> (a <= b)%Qc)
  /\ (App.growth (Fin a) (Fin b) = true <-> (a < b)%Qc)
  /\ (App.arrow_up (App.change_pct (Fin a) (Fin a)) = true
      /\ App.growth (Fin a) (Fin a) = false)
  /\ forall x, App.arrow_up (App.change_pct (int 0) x) = true.
Proof.
  intros Ha.
  assert (Hne : a <> 0%Qc).
  { intros ->. apply (Qclt_not_le _ _ Ha). apply Qcle_refl. }
  assert (Harrow : forall c, App.arrow_up (App.change_pct (Fin a) (Fin c)) = true
                             <-> (a <= c)%Qc).
  { intros c. rewrite (change_pct_finite c Hne).
    unfold App.arrow_up, int. cbn [leb].
    change (Q2Qc (inject_Z 0)) with 0%Qc.
    rewrite Qc_leb_le. apply pct_nonneg. exact Ha. }
  split; [apply Harrow |]. split; [apply Qc_ltb_lt |]. split.
  - split; [apply Harrow; apply Qcle_refl |].
    unfold App.growth. cbn [ltb]. apply not_true_is_false.
    rewrite Qc_ltb_lt. intros H. apply (Qclt_not_le _ _ H). apply Qcle_refl.
  - intros x. reflexivity.
Qed.

(** Equal totals of 35, as in the scenario: up arrow, and not "Growth". *)
Lemma arrow_and_growth_witness :
  App.arrow_up (App.change_pct (Fin (Q2Qc 35)) (Fin (Q2Qc 35))) = true
  /\ App.growth (Fin (Q2Qc 35)) (Fin (Q2Qc 35)) = false.
Proof.
  apply (proj1 (proj2 (proj2 (@arrow_and_growth (Q2Qc 35) (Q2Qc 35)
                                ltac:(apply Qclt_alt; reflexivity))))).
Defined.

(** ** The creation figures on two pages *)

Lemma filter_app_last (A : Type) (p : A -> bool) (l : list A) (x : A) :
  p x = false -> filter p (l ++ [x]) = filter p l.
Proof.
  intros H. rewrite filter_app. simpl. rewrite H. apply app_nil_r.
Qed.

Lemma df_creations_filter (df : Table) :
  App.df_creations df
  = filter (fun r => App.is_creation_op (operation_type (snd r))) df.
Proof.
  apply isin_filter_labels. intros r Hr. apply unique_In, labels_In, Hr.
Qed.

(** The sums of the Executive Summary (lines 590-596) are the sums of the
    analysis pages (lines 266-269): the test [if not d.empty else 0] in
    front of them changes no value.  And as long as the last row of the
    table is no creation row, the creation figures of the Executive
    Summary, taken from [df_for_summary], are those of the Creation
    Analysis, taken from the whole table. *)
Theorem summary_figures_agree (df s : Table) (last : Row) :
  iloc_last df = Ok last ->
  App.is_creation_op (operation_type last) = false ->
  App.df_for_summary df = Ok s ->
  (forall d, App.summary_figures d
             = (fst (fst (fst (App.figures d))), snd (fst (fst (App.figures d))),
                snd (App.figures d)))
  /\ App.df_creations s = App.df_creations df
  /\ App.summary_figures (App.df_creations s)
     = (fst (fst (fst (App.figures (App.df_creations df)))),
        snd (fst (fst (App.figures (App.df_creations df)))),
        snd (App.figures (App.df_creations df))).
Proof.
  intros Hlast Hop Hs.
  assert (Hfig : forall d, App.summary_figures d
            = (fst (fst (fst (App.figures d))), snd (fst (fst (App.figures d))),
               snd (App.figures d))).
  { intros d. unfold App.summary_figures, App.figures, App.change_pct.
    destruct d; reflexivity. }
  assert (Hsame : App.df_creations s = App.df_creations df).
  { unfold App.df_for_summary in Hs. rewrite Hlast in Hs. cbn [bind] in Hs.
    destruct (contains App.marker (operation_type last)); injection Hs as <-;
      [| reflexivity].
    rewrite !df_creations_filter.
    destruct (exists_last (l := df)) as (init & x & ->).
    { intros ->. discriminate. }
    rewrite iloc_last_app in Hlast. injection Hlast as <-.
    unfold iloc_init. rewrite removelast_last.
    symmetry. apply filter_app_last. exact Hop. }
  split; [exact Hfig |]. split; [exact Hsame |].
  rewrite Hsame. apply Hfig.
Qed.

(** Two creation rows, another row and a grand total at the end: the
    Executive Summary takes its creation rows from the table without the
    total, the Creation Analysis from the whole table, and both have the
    rows labelled 0 and 2, with 10 and 16 operations. *)
Lemma summary_figures_agree_witness :
  (App.df_creations Sample.creations = App.df_creations Sample.creations_total
   /\ App.summary_figures (App.df_creations Sample.creations)
      = (fst (fst (fst (App.figures (App.df_creations Sample.creations_total)))),
         snd (fst (fst (App.figures (App.df_creations Sample.creations_total)))),
         snd (App.figures (App.df_creations Sample.creations_total))))
  /\ map fst (App.df_creations Sample.creations_total) = [0; 2]
  /\ fst (fst (App.summary_figures (App.df_creations Sample.creations))) = int 10
  /\ snd (fst (App.summary_figures (App.df_creations Sample.creations))) = int 16.
Proof.
  split; [| split; [reflexivity | split; vm_compute; num_eq]].
  apply (proj2 (@summary_figures_agree Sample.creations_total Sample.creations
                  (Sample.row "المجموع" 30 34) eq_refl eq_refl eq_refl)).
Defined.

(** ** How the pages end *)

(** *** The analysis pages and the label cells *)

Lemma unique_from_texts (seen l : list string) :
  Loaded.unique_from (map CStr seen) (map CStr l)
  = map CStr (unique_from seen l).
Proof.
  revert seen. induction l as [| x l IH]; intros seen; [reflexivity |].
  cbn [map Loaded.unique_from unique_from].
  replace (existsb (Loaded.same_cell (CStr x)) (map CStr seen))
    with (existsb (String.eqb x) seen)
    by (induction seen as [| y seen IHs]; [reflexivity | simpl; rewrite IHs; reflexivity]).
  destruct (existsb (String.eqb x) seen); [apply IH |].
  cbn [map]. f_equal. apply (IH (x :: seen)).
Qed.

Lemma unique_texts (l : list string) :
  Loaded.unique (map CStr l) = map CStr (unique l).
Proof. apply (unique_from_texts [] l). Qed.

(** A label cell that is no text stays in the column after [unique()]. *)
Lemma unique_from_keeps (seen l : list cell) (c : cell) :
  (forall x, In x seen -> Loaded.is_text x = true) ->
  In c l -> Loaded.is_text c = false ->
  exists c', In c' (Loaded.unique_from seen l) /\ Loaded.is_text c' = false.
Proof.
  revert seen. induction l as [| x l IH]; intros seen Hseen Hin Hc; [destruct Hin |].
  cbn [Loaded.unique_from].
  destruct (Loaded.is_text x) eqn:Hx.
  - destruct Hin as [-> | Hin]; [congruence |].
    destruct (existsb (Loaded.same_cell x) seen).
    + apply IH; assumption.
    + destruct (IH (x :: seen)) as (c' & Hc' & Hn); try assumption.
      * intros y [<- | Hy]; [exact Hx | apply Hseen; exact Hy].
      * exists c'. split; [right; exact Hc' | exact Hn].
  - replace (existsb (Loaded.same_cell x) seen) with false.
    + exists x. split; [left; reflexivity | exact Hx].
    + symmetry. apply not_true_is_false. intros E.
      apply existsb_exists in E. destruct E as (y & Hy & Hsame).
      specialize (Hseen y Hy). destruct x, y; simpl in *; discriminate.
Qed.

Lemma comprehension_texts (a b : string) (l : list string) :
  Loaded.comprehension a b (map CStr l)
  = Ok (filter (fun op => contains a op || contains b op) l).
Proof.
  induction l as [| x l IH]; [reflexivity |].
  cbn [map Loaded.comprehension Loaded.in_op_or Loaded.in_op bind]. rewrite IH.
  cbn [bind filter Loaded.text].
  destruct (contains a x); cbn [orb]; [reflexivity |].
  cbn [Loaded.in_op bind]. destruct (contains b x); reflexivity.
Qed.

Lemma comprehension_not_text (a b : string) (l : list cell) :
  (exists c, In c l /\ Loaded.is_text c = false) ->
  Loaded.comprehension a b l = Raise TypeError.
Proof.
  induction l as [| x l IH]; intros (c & Hin & Hc); [destruct Hin |].
  cbn [Loaded.comprehension].
  destruct x as [n | str].
  - reflexivity.
  - destruct Hin as [<- | Hin]; [discriminate |].
    rewrite IH by (exists c; split; assumption).
    unfold Loaded.in_op_or, Loaded.in_op. cbn [bind].
    destruct (contains a str); reflexivity.
Qed.

(** A table of texts has the labels of its typed form. *)
Lemma labels_texts (t : Loaded.LTable) :
  Loaded.all_texts t = true ->
  Loaded.labels t = map CStr (labels (Loaded.table t)).
Proof.
  unfold Loaded.all_texts, Loaded.labels, labels, Loaded.table.
  induction t as [| r t IH]; intros H; [reflexivity |].
  cbn [forallb] in H. apply andb_true_iff in H. destruct H as [Hr Ht].
  cbn [map fst snd operation_type]. rewrite (IH Ht).
  destruct (Loaded.label (snd r)); [discriminate | reflexivity].
Qed.

Lemma not_all_texts (t : Loaded.LTable) :
  Loaded.all_texts t = false ->
  Loaded.empty t = false
  /\ exists c, In c (Loaded.unique (Loaded.labels t)) /\ Loaded.is_text c = false.
Proof.
  intros H. split; [destruct t; [discriminate | reflexivity] |].
  unfold Loaded.all_texts in H.
  assert (Hex : exists r, In r t /\ Loaded.is_text (Loaded.label (snd r)) = false).
  { induction t as [| r t IH]; [discriminate |].
    cbn [forallb] in H. apply andb_false_iff in H. destruct H as [H | H].
    - exists r. split; [left; reflexivity | exact H].
    - destruct (IH H) as (r' & Hr' & Hn). exists r'. split; [right; exact Hr' | exact Hn]. }
  destruct Hex as (r & Hr & Hn).
  apply (@unique_from_keeps [] (Loaded.labels t) (Loaded.label (snd r))).
  - intros x [].
  - unfold Loaded.labels. apply (in_map (fun r => Loaded.label (snd r))). exact Hr.
  - exact Hn.
Qed.

(** The lists of labels of lines 261 and 360, on a table of texts. *)
Lemma comprehension_of_table (a b : string) (t : Loaded.LTable) :
  Loaded.all_texts t = true ->
  Loaded.comprehension a b (Loaded.unique (Loaded.labels t))
  = Ok (filter (fun op => contains a op || contains b op)
          (unique (labels (Loaded.table t)))).
Proof.
  intros H. rewrite (labels_texts t H), unique_texts. apply comprehension_texts.
Qed.

(** The statements of the two pages that follow the figures (the selection,
    and the per-row percentage of lines 329 and 426, assigned to it) raise
    nothing on a frame of texts: a row with no operation in 2024 gets an
    infinity or NaN, not an error. *)
Lemma analysis_frames_end (h : heap) (df : ref) (f : Frame) :
  nth_error h df = Some f ->
  snd (App.creation_analysis df h) = Ok tt
  /\ snd (App.modification_analysis df h) = Ok tt.
Proof.
  intros H. split.
  - unfold App.creation_analysis, bindM. rewrite (get_at _ _ H).
    destruct (negb (empty (data f))); [| reflexivity].
    unfold new. rewrite get_fresh.
    match goal with |- context [negb ?b] => destruct (negb b) end;
      [| reflexivity].
    rewrite setitem_fresh. reflexivity.
  - unfold App.modification_analysis, bindM. rewrite (get_at _ _ H).
    destruct (negb (empty (data f))); [| reflexivity].
    unfold new. rewrite get_fresh.
    match goal with |- context [negb ?b] => destruct (negb b) end;
      [| reflexivity].
    rewrite setitem_fresh. reflexivity.
Qed.

(** The Creation Analysis and the Modification Analysis ask
    ['...' in op] of every label of the table (lines 261 and 360).  On a
    table whose label cells are all texts the pages raise nothing: they
    show the four figures of the rows whose label has one of the patterns,
    or their warning when there is no such row or no row at all, and the
    statements on the frames that follow end normally.  On a table with a
    label cell that is no text -- an empty cell, a number -- both pages
    raise TypeError. *)
Theorem analysis_pages_end (t : Loaded.LTable) :
  (Loaded.all_texts t = true ->
     Loaded.creation_analysis t
     = Ok (if negb (empty (App.df_creations (Loaded.table t)))
           then Some (App.figures (App.df_creations (Loaded.table t)))
           else None)
     /\ Loaded.modification_analysis t
        = Ok (if negb (empty (App.df_updates (Loaded.table t)))
              then Some (App.figures (App.df_updates (Loaded.table t)))
              else None)
     /\ snd (App.creation_analysis 0 [mkFrame (Loaded.table t) None]) = Ok tt
     /\ snd (App.modification_analysis 0 [mkFrame (Loaded.table t) None]) = Ok tt)
  /\ (Loaded.all_texts t = false ->
        Loaded.creation_analysis t = Raise TypeError
        /\ Loaded.modification_analysis t = Raise TypeError).
Proof.
  split.
  - intros H.
    assert (Hframes := @analysis_frames_end [mkFrame (Loaded.table t) None] 0
                         (mkFrame (Loaded.table t) None) eq_refl).
    split; [| split; [| exact Hframes]];
      revert H; clear Hframes; intros H;
      unfold Loaded.creation_analysis, Loaded.modification_analysis;
      (destruct t as [| r t]; [reflexivity |]);
      cbn [Loaded.empty negb];
      rewrite !(comprehension_of_table _ _ _ H); cbn [bind];
      fold (App.is_creation_op); fold (App.is_update_op).
    + change (isin (filter App.is_creation_op (unique (labels (Loaded.table (r :: t)))))
                (Loaded.table (r :: t)))
        with (App.df_creations (Loaded.table (r :: t))).
      destruct (empty (App.df_creations (Loaded.table (r :: t)))); reflexivity.
    + change (isin (filter App.is_update_op (unique (labels (Loaded.table (r :: t)))))
                (Loaded.table (r :: t)))
        with (App.df_updates (Loaded.table (r :: t))).
      destruct (empty (App.df_updates (Loaded.table (r :: t)))); reflexivity.
  - intros H. destruct (not_all_texts t H) as [Hne Hex].
    unfold Loaded.creation_analysis, Loaded.modification_analysis.
    rewrite Hne. cbn [negb].
    rewrite !(@comprehension_not_text _ _ _ Hex). split; reflexivity.
Qed.

(** Two creation rows among three: the Creation Analysis shows 10 and 16
    operations, the Modification Analysis its warning.  With a row whose
    label cell is empty, both pages raise TypeError. *)
Lemma analysis_pages_end_witness :
  (Loaded.creation_analysis (Loaded.of_table Sample.creations)
   = Ok (Some (App.figures (App.df_creations Sample.creations)))
   /\ Loaded.modification_analysis (Loaded.of_table Sample.creations) = Ok None
   /\ snd (App.creation_analysis 0 [mkFrame Sample.creations None]) = Ok tt
   /\ snd (App.modification_analysis 0 [mkFrame Sample.creations None]) = Ok tt)
  /\ map fst (App.df_creations Sample.creations) = [0; 2]
  /\ fst (fst (fst (App.figures (App.df_creations Sample.creations)))) = int 10
  /\ snd (fst (fst (App.figures (App.df_creations Sample.creations)))) = int 16
  /\ Loaded.creation_analysis Sample.blank_label = Raise TypeError
  /\ Loaded.modification_analysis Sample.blank_label = Raise TypeError.
Proof.
  split; [| split; [reflexivity | split; [vm_compute; num_eq | split; [vm_compute; num_eq |]]]].
  - apply (proj1 (analysis_pages_end (Loaded.of_table Sample.creations)) eq_refl).
  - apply (proj2 (analysis_pages_end Sample.blank_label)). reflexivity.
Defined.

Lemma most_requested_finite (d : Table) :
  Spec.all_finite d -> d <> [] ->
  exists name,
    bind (idxmax (column Y2025 d)) (fun i => loc_label i d) = Ok name.
Proof.
  intros Hfin Hne. unfold idxmax.
  destruct (extremum (fun x y => ltb y x) (column Y2025 d)) as [p |] eqn:E.
  - pose proof (extremum_In _ _ E) as Hin. unfold column in Hin.
    apply in_map_iff in Hin. destruct Hin as (r & <- & Hr).
    cbn [bind fst]. apply loc_label_In. apply in_map. exact Hr.
  - exfalso. destruct d as [| r d]; [apply Hne; reflexivity |].
    rewrite extremum_none in E.
    specialize (E (fst r, count Y2025 (snd r)) (or_introl eq_refl)).
    destruct (Hfin r (or_introl eq_refl)) as [_ H25]. cbn [snd count] in E.
    destruct (count_2025 (snd r)); discriminate.
Qed.

(** The Additional Services page on a table with finite counts: it ends
    normally or with ValueError, and with ValueError exactly when the table
    has one of the six services and every such row has 0 operations in both
    years -- each percentage is then 0/0 and [idxmax] finds no value. *)
Theorem additional_services_end (h : heap) (df : ref) (f : Frame) :
  nth_error h df = Some f ->
  Spec.all_finite (data f) ->
  (snd (App.additional_services df h) = Ok tt
   \/ snd (App.additional_services df h) = Raise ValueError)
  /\ (snd (App.additional_services df h) = Raise ValueError
      <-> App.df_services (data f) <> []
          /\ forall r, In r (App.df_services (data f)) -> Spec.zero_row r).
Proof.
  intros H Hfin.
  set (d := App.df_services (data f)).
  assert (Hd : Spec.all_finite d) by (apply all_finite_filter; exact Hfin).
  assert (Hempty : forall t : Table, empty t = true -> t = [])
    by (intros [| x t]; [reflexivity | discriminate]).
  remember (snd (App.additional_services df h)) as R eqn:HR.
  unfold App.additional_services, bindM in HR. rewrite (get_at _ _ H) in HR.
  destruct (empty (data f)) eqn:He; cbn [negb] in HR.
  { cbn [snd ret] in HR. subst R. split; [left; reflexivity |].
    split; [discriminate |]. intros [Hne _]. exfalso. apply Hne.
    unfold d. rewrite (Hempty _ He). reflexivity. }
  unfold new in HR. rewrite get_fresh in HR.
  change (data (select (isin App.service_ops) f)) with d in HR.
  destruct (empty d) eqn:Hed; cbn [negb] in HR.
  { cbn [snd ret] in HR. subst R. split; [left; reflexivity |].
    split; [discriminate |]. intros [Hne _]. exfalso. apply Hne.
    apply Hempty. exact Hed. }
  assert (Hne : d <> []) by (intros E; rewrite E in Hed; discriminate).
  destruct (most_requested_finite Hd Hne) as [name Hname].
  unfold lift at 1 in HR. rewrite Hname in HR.
  rewrite setitem_fresh, get_fresh in HR.
  change (App.biggest_increase
            (setitem_change_pct (App.change_pct_series d)
               (select (isin App.service_ops) f)))
    with (App.biggest_mover d App.Increase) in HR.
  change (App.biggest_decrease
            (setitem_change_pct (App.change_pct_series d)
               (select (isin App.service_ops) f)))
    with (App.biggest_mover d App.Decrease) in HR.
  unfold lift in HR.
  destruct (biggest_mover_outcome d App.Increase) as [(v & Hv & p & Hp) | [Hr Hn]].
  - rewrite Hv in HR. cbv beta iota in Hp.
    destruct (biggest_mover_outcome d App.Decrease) as [(w & Hw & _) | [Hr' Hn']].
    + rewrite Hw in HR. cbn [snd ret] in HR. subst R.
      split; [left; reflexivity |].
      split; [discriminate |]. intros [_ Hz]. exfalso.
      apply (proj2 (@change_pct_extremum_none d (fun x y => ltb y x) Hd)) in Hz.
      rewrite Hz in Hp. discriminate.
    + exfalso. cbv beta iota in Hn'.
      pose proof (proj1 (@change_pct_extremum_none d ltb Hd) Hn') as Hz.
      apply (proj2 (@change_pct_extremum_none d (fun x y => ltb y x) Hd)) in Hz.
      rewrite Hz in Hp. discriminate.
  - rewrite Hr in HR. cbn [snd] in HR. subst R.
    split; [right; reflexivity |].
    split; [| reflexivity]. intros _. split; [exact Hne |].
    cbv beta iota in Hn.
    apply (proj1 (@change_pct_extremum_none d (fun x y => ltb y x) Hd) Hn).
Qed.

(** One listed service, with no operation in either year: ValueError. *)
Lemma additional_services_end_witness :
  snd (App.additional_services 0 [mkFrame [(7, Sample.row "ترسيم رهون" 0 0)] None])
  = Raise ValueError
  <-> App.df_services [(7, Sample.row "ترسيم رهون" 0 0)] <> []
      /\ forall r, In r (App.df_services [(7, Sample.row "ترسيم رهون" 0 0)]) ->
           Spec.zero_row r.
Proof.
  apply (proj2 (@additional_services_end
                  [mkFrame [(7, Sample.row "ترسيم رهون" 0 0)] None] 0
                  (mkFrame [(7, Sample.row "ترسيم رهون" 0 0)] None) eq_refl
                  ltac:(intros r [<- | []]; split; reflexivity))).
Defined.

(** ** The two totals of dashRne.py *)

Lemma sum_column_app (y : Year) (a b : Table) :
  sum (column y (a ++ b)) = add (sum (column y a)) (sum (column y b)).
Proof.
  induction a as [| r a IH].
  - symmetry. apply add_0_l.
  - simpl app. simpl column. rewrite !sum_cons, IH.
    destruct (is_nan (count y (snd r))); [reflexivity | apply add_assoc].
Qed.

(** A sheet laid out as dashRne.py expects: finite counts, the grand total
    ['المجموع'] as the last row and nowhere else, and one row labelled
    ['مجموع عمليات التأسيس'].  The Executive Summary (lines 251-255) adds up
    every row but the last; the Data Overview (lines 73-80) shows that sum
    less the count of the creation total.  Both call it "Total Operations". *)
Theorem dashRne_two_totals (init : Table) (y : Year) (r t : nat * Row) :
  Spec.all_finite (init ++ [t]) ->
  operation_type (snd t) = DashRne.grand_total ->
  filter (has_label App.creation_total) init = [r] ->
  filter (has_label DashRne.grand_total) init = [] ->
  DashRne.summary_totals (init ++ [t])
  = Ok (sum (column Y2024 init), sum (column Y2025 init))
  /\ DashRne.totalf y (init ++ [t])
     = Ok (sub (sum (column y init)) (count y (snd r))).
Proof.
  intros Hfin Hlab Hr Ht. split.
  - unfold DashRne.summary_totals, DashRne.df_for_summary.
    rewrite iloc_last_app. cbn [bind]. rewrite Hlab.
    change (contains App.marker DashRne.grand_total) with true. cbv iota.
    unfold iloc_init. rewrite removelast_last. reflexivity.
  - assert (Hfi : Spec.all_finite init).
    { intros x Hx. apply Hfin. apply in_or_app. left. exact Hx. }
    assert (Hrin : In r init).
    { assert (H : In r (filter (has_label App.creation_total) init))
        by (rewrite Hr; left; reflexivity).
      apply filter_In in H. tauto. }
    assert (Htin : In t (init ++ [t]))
      by (apply in_or_app; right; left; reflexivity).
    destruct (Hfin t Htin) as [Ht24 Ht25].
    destruct (Hfi r Hrin) as [Hr24 Hr25].
    assert (Hfr : is_finite (count y (snd r)) = true) by (destruct y; assumption).
    assert (Hft : is_finite (count y (snd t)) = true) by (destruct y; assumption).
    unfold DashRne.totalf, DashRne.crea, loc_eq.
    rewrite !filter_app, Hr, Ht. unfold has_label at 1 2. cbn [filter].
    rewrite Hlab.
    change (String.eqb DashRne.grand_total App.creation_total) with false.
    change (String.eqb DashRne.grand_total DashRne.grand_total) with true.
    cbv iota. cbn [app column map values0 values bind fst snd].
    rewrite sum_column_app. cbn [column map fst snd]. rewrite sum_cons.
    change (sum []) with (int 0). rewrite add_0_r.
    destruct (column_finite_sum y Hfi) as [o Ho]. rewrite Ho.
    destruct (count y (snd r)) as [a | | |]; try discriminate.
    destruct (count y (snd t)) as [b | | |]; try discriminate.
    cbn [is_nan]. unfold sub, opp, add. f_equal. f_equal. ring.
Qed.

(** One service of 10 and 12 operations, the creation total of 30 and 40
    and the grand total: the Executive Summary shows 40 and 52, the Data
    Overview 10 for 2024. *)
Lemma dashRne_two_totals_witness :
  DashRne.summary_totals Sample.with_totals
  = Ok (sum (column Y2024 (removelast Sample.with_totals)),
        sum (column Y2025 (removelast Sample.with_totals)))
  /\ DashRne.totalf Y2024 Sample.with_totals
     = Ok (sub (sum (column Y2024 (removelast Sample.with_totals)))
             (count Y2024 (Sample.row App.creation_total 30 40))).
Proof.
  apply (@dashRne_two_totals (removelast Sample.with_totals) Y2024
           (1, Sample.row App.creation_total 30 40)
           (2, Sample.row DashRne.grand_total 100 120)).
  - intros x [<- | [<- | [<- | []]]]; split; reflexivity.
  - reflexivity.
  - reflexivity.
  - reflexivity.
Defined.

(** ** The highest operation of the highlights *)

(** On a table without missing counts, the operation the Executive Summary
    names as the highest of 2025 (lines 606 and 733-734) is the first row
    of [df_for_summary] among those with the count shown, and no row has a
    larger 2025 count. *)
Theorem top_op_row (d : Table) (name : string) (n : num) :
  Spec.no_missing d ->
  App.top_op d = Ok (name, n) ->
  exists r rest,
    filter (fun q => tie (count_2025 (snd q)) n) d = r :: rest
    /\ operation_type (snd r) = name
    /\ count_2025 (snd r) = n
    /\ forall q, In q d -> leb (count_2025 (snd q)) n = true.
Proof.
  intros Hv H. unfold App.top_op, App.top_ops, iloc_first in H.
  destruct (nlargest 5 Y2025 d) as [| r l] eqn:E; [discriminate |].
  cbn [bind] in H. injection H as <- <-.
  assert (Hin : forall q, In q (r :: l) -> In q d).
  { intros q Hq. apply (@nlargest_In d 5 Y2025). rewrite E. exact Hq. }
  assert (Hnan : forall q, In q d -> is_nan (count_2025 (snd q)) = false).
  { intros q Hq. apply (Hv q Hq). }
  assert (Hr : is_nan (count_2025 (snd r)) = false).
  { apply Hnan. apply Hin. left. reflexivity. }
  destruct (@nlargest_keeps_ties d 5 Y2025 (count_2025 (snd r))) as [l3 Hl3].
  rewrite E in Hl3. cbn [filter count] in Hl3.
  unfold tie at 2 in Hl3. rewrite desc_leb_refl in Hl3. cbn [andb] in Hl3.
  exists r. eexists. split; [exact Hl3 |]. split; [reflexivity |].
  split; [reflexivity |].
  intros q Hq.
  destruct (@nlargest_split d 5 Y2025) as (Hs & rest & Hperm & Hrest).
  rewrite E in Hs, Hperm, Hrest. cbn [count] in Hs, Hrest.
  rewrite <- (@desc_leb_geb _ _ Hr (Hnan q Hq)).
  apply (Permutation_in _ Hperm) in Hq. cbn [app] in Hq.
  destruct Hq as [<- | Hq]; [apply desc_leb_refl |].
  apply in_app_or in Hq. destruct Hq as [Hq | Hq].
  - apply StronglySorted_inv in Hs. destruct Hs as [_ Hall].
    rewrite Forall_forall in Hall. apply Hall. exact Hq.
  - apply Hrest; [left; reflexivity | exact Hq].
Qed.

(** The scenario table: B, with 18 operations in 2025. *)
Lemma top_op_row_witness :
  exists r rest,
    filter (fun q => tie (count_2025 (snd q)) (int 18)) Sample.abc = r :: rest
    /\ operation_type (snd r) = "B"%string
    /\ count_2025 (snd r) = int 18
    /\ forall q, In q Sample.abc -> leb (count_2025 (snd q)) (int 18) = true.
Proof.
  apply (@top_op_row Sample.abc "B"%string (int 18)).
  - intros r [<- | [<- | [<- | []]]]; split; reflexivity.
  - reflexivity.
Defined.
